(** * fetch_tech_news: a shallow embedding of [src/fetch_tech_news.py]

    The program reads five RSS feeds, normalises the first five entries
    of each, keeps the entries of the last 24 hours (and the undated
    ones), sorts them newest first, keeps ten and prints a report.

    The embedding follows the script statement by statement:
    - Python exceptions and [print] are an exception-and-output monad
      [Py], with [try_except] for [try: ... except Exception as e:];
    - [for] loops over a list with a mutated local are [for_in], a fold
      that threads the local through the body;
    - [datetime], [timedelta], [strftime] and [list.sort] are library
      code: they are modelled after CPython's behaviour (module
      [Datetime], [sort_by_key_reverse]);
    - [feedparser.parse] reaches the network: its outcome per URL is a
      variable of the section that holds the program. *)

From Stdlib Require Import ZArith List String Ascii Bool Lia.
From Stdlib Require Import DecimalString Permutation.
Import ListNotations.

Open Scope string_scope.
Open Scope list_scope.
Open Scope Z_scope.

Infix "+++" := String.append (right associativity, at level 60).

(** ** Python values the script relies on *)

(** [str(n)] for an integer, as an f-string or [%d] renders it. *)
Definition str_Z (z : Z) : string := NilZero.string_of_int (Z.to_int z).
Definition str_nat (n : nat) : string := str_Z (Z.of_nat n).

(** ["=" * 80]: a string repeated [n] times. *)
Fixpoint str_mul (s : string) (n : nat) : string :=
  match n with
  | O => EmptyString
  | S n' => s +++ str_mul s n'
  end.

(** [t] occurs in [s] as a contiguous run of characters. *)
Definition contains (s t : string) : Prop :=
  exists a b, s = a +++ t +++ b.

(** *** Exceptions and standard output *)

(** An exception object: an instance of [Exception] or of one of its
    subclasses, which is what [except Exception] catches and what a
    failing library call raises.  The script only looks at its [str()];
    the class name is kept for reading.  ([KeyboardInterrupt] and
    [SystemExit] are not instances of [Exception] and are not raised by
    the calls modelled here.) *)
Record exn : Type := mk_exn {
  exn_class : string;
  exn_str : string
}.

Inductive outcome (A : Type) : Type :=
| Return (a : A)
| Raise (e : exn).
Arguments Return {A} a.
Arguments Raise {A} e.

(** Sequencing of calls that return or raise and print nothing. *)
Definition obind {A B} (o : outcome A) (k : A -> outcome B) : outcome B :=
  match o with
  | Return a => k a
  | Raise e => Raise e
  end.

(** Standard output: the texts handed to [print], oldest first.  [print]
    ends each of them with a newline. *)
Definition stdout := list string.

(** A Python computation: it may print, and it returns or raises.  What
    was printed before an exception stays printed. *)
Definition Py (A : Type) : Type := stdout -> outcome A * stdout.

Definition ret {A} (a : A) : Py A := fun out => (Return a, out).

Definition raise {A} (e : exn) : Py A := fun out => (Raise e, out).

Definition bind {A B} (c : Py A) (k : A -> Py B) : Py B :=
  fun out =>
    match c out with
    | (Return a, out') => k a out'
    | (Raise e, out') => (Raise e, out')
    end.

(** A call that returns or raises and prints nothing. *)
Definition lift {A} (o : outcome A) : Py A := fun out => (o, out).

Definition print (s : string) : Py unit := fun out => (Return tt, out ++ [s]).

(** [try: body except Exception as e: handler e]. *)
Definition try_except {A} (body : Py A) (handler : exn -> Py A) : Py A :=
  fun out =>
    match body out with
    | (Return a, out') => (Return a, out')
    | (Raise e, out') => handler e out'
    end.

Declare Scope py_scope.
Delimit Scope py_scope with py.
Notation "x <- c ;; k" := (bind c (fun x => k))
  (at level 100, c at next level, right associativity) : py_scope.
Notation "c ;; k" := (bind c (fun _ => k))
  (at level 100, right associativity) : py_scope.
Notation "x <~ o ;; k" := (obind o (fun x => k))
  (at level 100, o at next level, right associativity) : py_scope.
Open Scope py_scope.

(** [for x in l: body], where the body updates a local of type [S]. *)
Fixpoint for_in {A S} (l : list A) (body : A -> S -> Py S) (s : S) : Py S :=
  match l with
  | [] => ret s
  | x :: rest => s' <- body x s ;; for_in rest body s'
  end.

(** [enumerate(l, start)]. *)
Fixpoint enumerate {A} (l : list A) (start : nat) : list (nat * A) :=
  match l with
  | [] => []
  | x :: rest => (start, x) :: enumerate rest (S start)
  end.

(** *** [list.sort(key=..., reverse=True)]

    Python's sort is stable, also with [reverse=True]: the result is in
    descending key order and elements with equal keys keep the order
    they had.  Insertion from the right gives exactly that list. *)
Section Sort.
Context {A K : Type}.
Variable key : A -> K.
Variable geb : K -> K -> bool.

Fixpoint insert_desc (x : A) (l : list A) : list A :=
  match l with
  | [] => [x]
  | y :: rest =>
      if geb (key x) (key y) then x :: y :: rest
      else y :: insert_desc x rest
  end.

Fixpoint sort_by_key_reverse (l : list A) : list A :=
  match l with
  | [] => []
  | x :: rest => insert_desc x (sort_by_key_reverse rest)
  end.
End Sort.

(** ** The [datetime] module, as far as the script uses it *)
Module Datetime.

(** [time.struct_time]: a 9-tuple; the script takes its first six
    items with [[:6]]. *)
Record struct_time : Type := mk_struct_time {
  tm_year : Z; tm_mon : Z; tm_mday : Z;
  tm_hour : Z; tm_min : Z; tm_sec : Z;
  tm_wday : Z; tm_yday : Z; tm_isdst : Z
}.

Inductive timezone : Type := utc.

(** A [datetime] object; [tzinfo = None] is a naive one. *)
Record datetime : Type := mk_datetime {
  year : Z; month : Z; day : Z;
  hour : Z; minute : Z; second : Z; microsecond : Z;
  tzinfo : option timezone
}.

Definition MINYEAR : Z := 1.
Definition MAXYEAR : Z := 9999.
Definition _MAXORDINAL : Z := 3652059.

Definition _is_leap (y : Z) : bool :=
  (y mod 4 =? 0) && (negb (y mod 100 =? 0) || (y mod 400 =? 0)).

Definition _DAYS_IN_MONTH : list Z :=
  [-1; 31; 28; 31; 30; 31; 30; 31; 31; 30; 31; 30; 31].

Definition _DAYS_BEFORE_MONTH : list Z :=
  [-1; 0; 31; 59; 90; 120; 151; 181; 212; 243; 273; 304; 334].

Definition _days_in_month (y m : Z) : Z :=
  if (m =? 2) && _is_leap y then 29
  else nth (Z.to_nat m) _DAYS_IN_MONTH 0.

Definition _days_before_year (y : Z) : Z :=
  let y := y - 1 in y * 365 + y / 4 - y / 100 + y / 400.

Definition _days_before_month (y m : Z) : Z :=
  nth (Z.to_nat m) _DAYS_BEFORE_MONTH 0
  + (if (2 <? m) && _is_leap y then 1 else 0).

Definition _ymd2ord (y m d : Z) : Z :=
  _days_before_year y + _days_before_month y m + d.

Definition _DI400Y : Z := 146097.
Definition _DI100Y : Z := 36524.
Definition _DI4Y : Z := 1461.

Definition _ord2ymd (n : Z) : Z * Z * Z :=
  let n := n - 1 in
  let n400 := n / _DI400Y in
  let n := n mod _DI400Y in
  let y := n400 * 400 + 1 in
  let n100 := n / _DI100Y in
  let n := n mod _DI100Y in
  let n4 := n / _DI4Y in
  let n := n mod _DI4Y in
  let n1 := n / 365 in
  let n := n mod 365 in
  let y := y + n100 * 100 + n4 * 4 + n1 in
  if (n1 =? 4) || (n100 =? 4) then (y - 1, 12, 31)
  else
    let leapyear := (n1 =? 3) && (negb (n4 =? 24) || (n100 =? 3)) in
    let m := Z.shiftr (n + 50) 5 in
    let preceding :=
      nth (Z.to_nat m) _DAYS_BEFORE_MONTH 0
      + (if (2 <? m) && leapyear then 1 else 0) in
    if n <? preceding then
      let m := m - 1 in
      let preceding :=
        preceding
        - (nth (Z.to_nat m) _DAYS_IN_MONTH 0
           + (if (m =? 2) && leapyear then 1 else 0)) in
      (y, m, n - preceding + 1)
    else (y, m, n - preceding + 1).

Definition ValueError (msg : string) : exn := mk_exn "ValueError" msg.
Definition OverflowError (msg : string) : exn := mk_exn "OverflowError" msg.

(** The constructor is written in C: each argument is first converted
    to a C [int], in the order it is given, and an integer that does not
    fit raises [OverflowError] (on a 64-bit Linux build, with one text
    beyond the range of a C [long] and another beyond that of an
    [int]). *)
Definition INT_MIN : Z := -2147483648.
Definition INT_MAX : Z := 2147483647.
Definition LONG_MIN : Z := -9223372036854775808.
Definition LONG_MAX : Z := 9223372036854775807.

Definition as_int (x : Z) : outcome Z :=
  if (x <? LONG_MIN) || (LONG_MAX <? x) then
    Raise (OverflowError "Python int too large to convert to C long")
  else if INT_MAX <? x then
    Raise (OverflowError "signed integer is greater than maximum")
  else if x <? INT_MIN then
    Raise (OverflowError "signed integer is less than minimum")
  else Return x.

(** [datetime(y, m, d, H, M, S, tzinfo=tz)]: after the conversion of
    the six integers the constructor checks the date fields, then the
    time fields, and raises [ValueError] at the first one out of
    range. *)
Definition new_datetime (y m d H M S : Z) (tz : option timezone)
  : outcome datetime :=
  y <~ as_int y ;;
  m <~ as_int m ;;
  d <~ as_int d ;;
  H <~ as_int H ;;
  M <~ as_int M ;;
  S <~ as_int S ;;
  if negb ((MINYEAR <=? y) && (y <=? MAXYEAR)) then
    Raise (ValueError ("year " +++ str_Z y +++ " is out of range"))
  else if negb ((1 <=? m) && (m <=? 12)) then
    Raise (ValueError "month must be in 1..12")
  else if negb ((1 <=? d) && (d <=? _days_in_month y m)) then
    Raise (ValueError "day is out of range for month")
  else if negb ((0 <=? H) && (H <=? 23)) then
    Raise (ValueError "hour must be in 0..23")
  else if negb ((0 <=? M) && (M <=? 59)) then
    Raise (ValueError "minute must be in 0..59")
  else if negb ((0 <=? S) && (S <=? 59)) then
    Raise (ValueError "second must be in 0..59")
  else Return (mk_datetime y m d H M S 0 tz).

(** The constructor applied to the first six items of a
    [struct_time], as in [datetime( *t[:6], tzinfo=tz)]. *)
Definition datetime_of_struct_time (t : struct_time) (tz : option timezone)
  : outcome datetime :=
  new_datetime (tm_year t) (tm_mon t) (tm_mday t)
               (tm_hour t) (tm_min t) (tm_sec t) tz.

(** The fields every [datetime] object satisfies. *)
Definition valid_datetime (d : datetime) : bool :=
  (MINYEAR <=? year d) && (year d <=? MAXYEAR)
  && (1 <=? month d) && (month d <=? 12)
  && (1 <=? day d) && (day d <=? _days_in_month (year d) (month d))
  && (0 <=? hour d) && (hour d <=? 23)
  && (0 <=? minute d) && (minute d <=? 59)
  && (0 <=? second d) && (second d <=? 59)
  && (0 <=? microsecond d) && (microsecond d <=? 999999).

(** [datetime.min], which is naive, and [d.replace(tzinfo=tz)]. *)
Definition datetime_min : datetime := mk_datetime 1 1 1 0 0 0 0 None.
Definition replace_tzinfo (d : datetime) (tz : option timezone) : datetime :=
  mk_datetime (year d) (month d) (day d)
              (hour d) (minute d) (second d) (microsecond d) tz.

(** Comparison of two datetimes that carry the same [tzinfo]: the
    tuples of their fields are compared, first difference decides. *)
Definition fields (d : datetime) : list Z :=
  [year d; month d; day d; hour d; minute d; second d; microsecond d].

Fixpoint _cmp (a b : list Z) : comparison :=
  match a, b with
  | [], [] => Eq
  | [], _ :: _ => Lt
  | _ :: _, [] => Gt
  | x :: a', y :: b' =>
      match x ?= y with
      | Eq => _cmp a' b'
      | c => c
      end
  end.

Definition datetime_cmp (a b : datetime) : comparison :=
  _cmp (fields a) (fields b).

(** [a >= b] and [a < b]. *)
Definition datetime_ge (a b : datetime) : bool :=
  match datetime_cmp a b with Lt => false | _ => true end.
Definition datetime_lt (a b : datetime) : bool :=
  match datetime_cmp a b with Lt => true | _ => false end.

(** [timedelta], normalised: [0 <= seconds < 86400] and
    [0 <= microseconds < 1000000]. *)
Record timedelta : Type := mk_timedelta {
  days : Z; seconds : Z; microseconds : Z
}.

(** [timedelta(hours=h)]. *)
Definition timedelta_hours (h : Z) : timedelta :=
  let s := h * 3600 in
  mk_timedelta (s / 86400) (s mod 86400) 0.

Definition toordinal (d : datetime) : Z := _ymd2ord (year d) (month d) (day d).

Definition total_microseconds (td : timedelta) : Z :=
  (days td * 86400 + seconds td) * 1000000 + microseconds td.

(** [d - td]: the difference is taken on (ordinal day, time of day),
    renormalised, and turned back into a date; a day outside
    [1.._MAXORDINAL] raises [OverflowError]. *)
Definition datetime_sub (d : datetime) (td : timedelta) : outcome datetime :=
  let self :=
    mk_timedelta (toordinal d)
                 (hour d * 3600 + minute d * 60 + second d) (microsecond d) in
  let us := total_microseconds self - total_microseconds td in
  let delta_days := us / 86400000000 in
  let delta_seconds := (us mod 86400000000) / 1000000 in
  let delta_micro := (us mod 86400000000) mod 1000000 in
  if (0 <? delta_days) && (delta_days <=? _MAXORDINAL) then
    let '(y, m, dd) := _ord2ymd delta_days in
    Return (mk_datetime y m dd
              (delta_seconds / 3600)
              ((delta_seconds mod 3600) / 60)
              ((delta_seconds mod 3600) mod 60)
              delta_micro (tzinfo d))
  else Raise (OverflowError "date value out of range").

(** Left padding with zeros, as the numeric fields of [strftime] have
    it. *)
Definition zero_pad (width : nat) (s : string) : string :=
  str_mul "0" (width - String.length s) +++ s.

(** [d.strftime('%Y-%m-%d %H:%M UTC')], as CPython 3.11 prints it on
    Linux, where the C library formats the fields: the year is its
    decimal text without padding (999 for the year 999), the other
    fields have two digits.  From the year 1000 on every platform
    prints the same text. *)
Definition strftime_ymd_hm_utc (d : datetime) : string :=
  str_Z (year d) +++ "-" +++
  zero_pad 2 (str_Z (month d)) +++ "-" +++
  zero_pad 2 (str_Z (day d)) +++ " " +++
  zero_pad 2 (str_Z (hour d)) +++ ":" +++
  zero_pad 2 (str_Z (minute d)) +++ " UTC".

End Datetime.

(** ** What [feedparser] hands to the script *)
Module Feedparser.
Import Datetime.

(** One item of [feed.entries].  An attribute the feed did not give is
    [None] here: reading it raises [AttributeError] and [hasattr] is
    false.  The two parsed dates can also be there with the Python
    value [None] (a date text that could not be parsed): that is
    [Some None]. *)
Record entry : Type := mk_entry {
  title : option string;
  link : option string;
  published_parsed : option (option struct_time);
  updated_parsed : option (option struct_time)
}.

(** The result of [feedparser.parse]. *)
Record feed : Type := mk_feed {
  entries : list entry
}.

Definition AttributeError (name : string) : exn :=
  mk_exn "AttributeError" ("object has no attribute '" +++ name +++ "'").

(** [entry.name]. *)
Definition getattr {A} (name : string) (field : option A) : outcome A :=
  match field with
  | Some v => Return v
  | None => Raise (AttributeError name)
  end.

(** [hasattr(entry, name)]. *)
Definition hasattr {A} (field : option A) : bool :=
  match field with Some _ => true | None => false end.

(** [hasattr(entry, name) and entry.name], for an attribute whose
    value is a [struct_time] (always true as a condition) or [None]:
    the [struct_time] when the condition holds. *)
Definition hasattr_and_truthy {A} (field : option (option A)) : option A :=
  match field with
  | Some (Some v) => Some v
  | _ => None
  end.

End Feedparser.

(** ** The script *)

(** The dictionary [fetch_feed] builds for an entry: its keys are
    ['headline'], ['source'], ['date'] and ['link']. *)
Record Entry : Type := mk_Entry {
  headline : string;
  source : string;
  date : option Datetime.datetime;
  link : string
}.

Definition LF : string := String (ascii_of_nat 10) EmptyString.

Section Program.
Import Datetime.

(** [feedparser.parse(url)]: what the network and the parser give for
    each URL during the run, a feed or an exception. *)
Variable parse : string -> outcome Feedparser.feed.

(** Lines 14-18: the published date, else the updated date, else
    [None]. *)
Definition get_pub_date (entry : Feedparser.entry) : outcome (option datetime) :=
  match Feedparser.hasattr_and_truthy (Feedparser.published_parsed entry) with
  | Some published_parsed =>
      d <~ datetime_of_struct_time published_parsed (Some utc) ;;
      Return (Some d)
  | None =>
      match Feedparser.hasattr_and_truthy (Feedparser.updated_parsed entry) with
      | Some updated_parsed =>
          d <~ datetime_of_struct_time updated_parsed (Some utc) ;;
          Return (Some d)
      | None => Return None
      end
  end.

(** Lines 13-25 without the [append]: the dictionary built for one
    entry.  Nothing is printed here, so this is a plain outcome. *)
Definition normalize_entry (source_name : string) (entry : Feedparser.entry)
  : outcome Entry :=
  pub_date <~ get_pub_date entry ;;
  title <~ Feedparser.getattr "title" (Feedparser.title entry) ;;
  Return {| headline := title;
            source := source_name;
            date := pub_date;
            link := if Feedparser.hasattr (Feedparser.link entry)
                    then match Feedparser.link entry with
                         | Some l => l
                         | None => ""
                         end
                    else "" |}.

(** Lines 10-26: what stands inside [try:]. *)
Definition fetch_feed_try (url source_name : string) : Py (list Entry) :=
  feed <- lift (parse url) ;;
  entries <- for_in (firstn 5 (Feedparser.entries feed))
               (fun entry entries =>
                  e <- lift (normalize_entry source_name entry) ;;
                  ret (entries ++ [e]))
               [] ;;
  ret entries.

(** Lines 27-29: the handler. *)
Definition fetch_feed_except (source_name : string) (e : exn)
  : Py (list Entry) :=
  print ("Error fetching " +++ source_name +++ ": " +++ exn_str e) ;;
  ret [].

Definition fetch_feed (url source_name : string) : Py (list Entry) :=
  try_except (fetch_feed_try url source_name)
             (fetch_feed_except source_name).

Definition feeds : list (string * string) :=
  [ ("https://techcrunch.com/feed/", "TechCrunch");
    ("https://www.theverge.com/rss/index.xml", "The Verge");
    ("https://www.wired.com/feed/rss", "Wired");
    ("https://arstechnica.com/feed/", "Ars Technica");
    ("https://feeds.bbci.co.uk/news/technology/rss.xml", "BBC Tech") ].

(** Line 48: the condition under which an entry is kept. *)
Definition is_recent (cutoff_time : datetime) (entry : Entry) : bool :=
  match date entry with
  | None => true
  | Some d => datetime_ge d cutoff_time
  end.

(** Lines 45-49: the body of the loop over [feeds]. *)
Definition main_feed (cutoff_time : datetime) (feed : string * string)
    (all_entries : list Entry) : Py (list Entry) :=
  let '(url, source) := feed in
  entries <- fetch_feed url source ;;
  for_in entries
    (fun entry all_entries =>
       if is_recent cutoff_time entry
       then ret (all_entries ++ [entry])
       else ret all_entries)
    all_entries.

(** Line 52: the sort key. A [datetime] is never false as a condition,
    so [x['date'] or default] is the default exactly for [None]. *)
Definition sort_key (x : Entry) : datetime :=
  match date x with
  | Some d => d
  | None => replace_tzinfo datetime_min (Some utc)
  end.

(** Lines 60-65: the body of the loop over [enumerate(top_10, 1)]. *)
Definition print_item (p : nat * Entry) (_ : unit) : Py unit :=
  let '(i, item) := p in
  let date_str :=
    match date item with
    | Some d => strftime_ymd_hm_utc d
    | None => "Unknown"
    end in
  print (str_nat i +++ ". " +++ headline item) ;;
  print ("   Source: " +++ source item) ;;
  print ("   Date: " +++ date_str) ;;
  print "".

(** Lines 57-65. *)
Definition report (top_10 : list Entry) : Py unit :=
  print ("Top " +++ str_nat (List.length top_10)
         +++ " Technology News Headlines" +++ LF) ;;
  print (str_mul "=" 80) ;;
  for_in (enumerate top_10 1) print_item tt.

(** Lines 41-52: the entries kept from all feeds, sorted. *)
Definition main_sorted (now : datetime) : Py (list Entry) :=
  cutoff_time <- lift (datetime_sub now (timedelta_hours 24)) ;;
  all_entries <- for_in feeds (main_feed cutoff_time) [] ;;
  ret (sort_by_key_reverse sort_key datetime_ge all_entries).

(** [main], with the value of [datetime.now(timezone.utc)]. *)
Definition main (now : datetime) : Py (list Entry) :=
  all_entries <- main_sorted now ;;
  let top_10 := firstn 10 all_entries in
  report top_10 ;;
  ret top_10.

End Program.

(** ** Pure descriptions of the stages

    The statements below compare the script with these functions: what
    a fetch returns and prints, what the loop over the feeds collects,
    and the text of the report as the specification words it. *)
Section Stages.
Import Datetime.
Variable parse : string -> outcome Feedparser.feed.

(** Every element is mapped, in order; the first exception wins. *)
Fixpoint traverse {A B} (f : A -> outcome B) (l : list A) : outcome (list B) :=
  match l with
  | [] => Return []
  | x :: rest =>
      y <~ f x ;;
      ys <~ traverse f rest ;;
      Return (y :: ys)
  end.

(** The outcome of the [try] block of [fetch_feed]. *)
Definition fetch_outcome (url source_name : string) : outcome (list Entry) :=
  feed <~ parse url ;;
  traverse (normalize_entry source_name) (firstn 5 (Feedparser.entries feed)).

(** The line [fetch_feed] prints for exception [e]. *)
Definition diagnostic (source_name : string) (e : exn) : string :=
  "Error fetching " +++ source_name +++ ": " +++ exn_str e.

Definition fetch_feed_result (url source_name : string) : list Entry :=
  match fetch_outcome url source_name with
  | Return entries => entries
  | Raise _ => []
  end.

Definition fetch_feed_output (url source_name : string) : stdout :=
  match fetch_outcome url source_name with
  | Return _ => []
  | Raise e => [diagnostic source_name e]
  end.

(** All entries the feeds [fs] give, in feed order, and all the
    diagnostics. *)
Definition fetched (fs : list (string * string)) : list Entry :=
  flat_map (fun f => fetch_feed_result (fst f) (snd f)) fs.

Definition diagnostics (fs : list (string * string)) : stdout :=
  flat_map (fun f => fetch_feed_output (fst f) (snd f)) fs.

(** The entries that pass the filter of line 48, and the same sorted as
    on line 52. *)
Definition aggregate (cutoff_time : datetime) : list Entry :=
  filter (is_recent cutoff_time) (fetched feeds).

Definition sorted_entries (cutoff_time : datetime) : list Entry :=
  sort_by_key_reverse sort_key datetime_ge (aggregate cutoff_time).
End Stages.


(** The key used when an entry has no date. *)
Definition datetime_min_utc : Datetime.datetime :=
  Datetime.replace_tzinfo Datetime.datetime_min (Some Datetime.utc).

(** The datetime that [datetime( *t[:6], tzinfo=timezone.utc)] builds
    when the fields of [t] are in range. *)
Definition utc_datetime (t : Datetime.struct_time) : Datetime.datetime :=
  Datetime.mk_datetime
    (Datetime.tm_year t) (Datetime.tm_mon t) (Datetime.tm_mday t)
    (Datetime.tm_hour t) (Datetime.tm_min t) (Datetime.tm_sec t)
    0 (Some Datetime.utc).

(** The report, following the specification: a header with the count,
    a rule, and per entry its number (from 1), headline, source and
    date, the date as [YYYY-MM-DD HH:MM UTC] or [Unknown]. *)
Definition digit (n : Z) : string :=
  String (ascii_of_nat (48 + Z.to_nat (n mod 10))) EmptyString.

Definition YYYY (y : Z) : string :=
  digit (y / 1000) +++ digit (y / 100) +++ digit (y / 10) +++ digit y.

Definition two_digits (n : Z) : string := digit (n / 10) +++ digit n.

Definition YYYY_MM_DD_HH_MM_UTC (d : Datetime.datetime) : string :=
  YYYY (Datetime.year d) +++ "-" +++ two_digits (Datetime.month d) +++ "-"
  +++ two_digits (Datetime.day d) +++ " " +++ two_digits (Datetime.hour d)
  +++ ":" +++ two_digits (Datetime.minute d) +++ " UTC".

Definition date_text (d : option Datetime.datetime) : string :=
  match d with
  | Some d => YYYY_MM_DD_HH_MM_UTC d
  | None => "Unknown"
  end.

Definition item_lines (i : nat) (item : Entry) : list string :=
  [ str_nat i +++ ". " +++ headline item;
    "   Source: " +++ source item;
    "   Date: " +++ date_text (date item);
    "" ].

Fixpoint render_items (i : nat) (items : list Entry) : list string :=
  match items with
  | [] => []
  | item :: rest => item_lines i item ++ render_items (S i) rest
  end.


(** Keys in descending order: every element is at least as large as all
    the elements after it. *)
Inductive descending {A K} (key : A -> K) (geb : K -> K -> bool)
  : list A -> Prop :=
| descending_nil : descending key geb []
| descending_cons x l :
    Forall (fun y => geb (key x) (key y) = true) l ->
    descending key geb l ->
    descending key geb (x :: l).

(** The elements whose key equals [k] for the order [geb]. *)
Definition with_key {A K} (key : A -> K) (geb : K -> K -> bool) (k : K)
  (l : list A) : list A :=
  filter (fun x => geb (key x) k && geb k (key x)) l.


Definition dateless (x : Entry) : bool :=
  match date x with None => true | Some _ => false end.

(** An entry comes from the feeds when some call of [fetch_feed] on a
    feed of the list returns it. *)
Definition fetched_from_feeds (parse : string -> outcome Feedparser.feed)
  (entry : Entry) : Prop :=
  exists url source_name out entries out',
    In (url, source_name) feeds
    /\ fetch_feed parse url source_name out = (Return entries, out')
    /\ In entry entries.

(** ** Sample runs *)
Module Samples.
Import Datetime.

Definition st (y m d H M S : Z) : struct_time :=
  mk_struct_time y m d H M S 0 0 0.

(** The clock of the sample runs: 2024-03-02 12:00:00.000055 UTC. *)
Definition now : datetime := mk_datetime 2024 3 2 12 0 0 55 (Some utc).
Definition cutoff : datetime := mk_datetime 2024 3 1 12 0 0 55 (Some utc).

Definition published (title : string) (t : struct_time) : Feedparser.entry :=
  Feedparser.mk_entry (Some title) (Some ("https://example.org/" +++ title))
    (Some (Some t)) None.

(** Only an updated date, and no link. *)
Definition updated_only (title : string) (t : struct_time) : Feedparser.entry :=
  Feedparser.mk_entry (Some title) None None (Some (Some t)).

(** A date text that could not be parsed, and no updated date. *)
Definition undated (title : string) : Feedparser.entry :=
  Feedparser.mk_entry (Some title) None (Some None) None.

(** An item with a description but no title. *)
Definition untitled (t : struct_time) : Feedparser.entry :=
  Feedparser.mk_entry None (Some "https://example.org/untitled")
    (Some (Some t)) None.

Definition techcrunch : list Feedparser.entry :=
  [ published "a1" (st 2024 3 2 10 0 0);
    updated_only "a2" (st 2024 3 2 11 0 0);
    undated "a3";
    published "a4" (st 2024 2 1 9 0 0);
    published "a5" (st 2024 3 2 10 0 0);
    published "a6" (st 2024 3 2 11 30 0);
    published "a7" (st 2024 3 2 11 45 0) ].

Definition wired : list Feedparser.entry :=
  [ published "w1" (st 2024 3 2 9 0 0);
    untitled (st 2024 3 2 9 30 0);
    published "w3" (st 2024 3 2 9 45 0) ].

Definition ars : list Feedparser.entry := [ undated "r1"; undated "r2" ].

Definition URLError : exn := mk_exn "URLError" "<urlopen error timed out>".

(** One feed is fine, one is unreachable, one has an item without a
    title, one has only undated items, one is unreachable. *)
Definition world (url : string) : outcome Feedparser.feed :=
  if String.eqb url "https://techcrunch.com/feed/"
  then Return (Feedparser.mk_feed techcrunch)
  else if String.eqb url "https://www.wired.com/feed/rss"
  then Return (Feedparser.mk_feed wired)
  else if String.eqb url "https://arstechnica.com/feed/"
  then Return (Feedparser.mk_feed ars)
  else Raise URLError.

(** Every feed has the same five fresh items: 25 entries qualify. *)
Definition busy : list Feedparser.entry :=
  [ published "b1" (st 2024 3 2 8 0 0);
    published "b2" (st 2024 3 2 8 10 0);
    published "b3" (st 2024 3 2 8 20 0);
    undated "b4";
    published "b5" (st 2024 3 2 8 40 0) ].

Definition busy_world (url : string) : outcome Feedparser.feed :=
  Return (Feedparser.mk_feed busy).

Definition entry_a1 : Entry :=
  mk_Entry "a1" "TechCrunch" (Some (utc_datetime (st 2024 3 2 10 0 0)))
           "https://example.org/a1".
Definition entry_a2 : Entry :=
  mk_Entry "a2" "TechCrunch" (Some (utc_datetime (st 2024 3 2 11 0 0))) "".
Definition entry_a3 : Entry := mk_Entry "a3" "TechCrunch" None "".
Definition entry_a5 : Entry :=
  mk_Entry "a5" "TechCrunch" (Some (utc_datetime (st 2024 3 2 10 0 0)))
           "https://example.org/a5".
Definition entry_r1 : Entry := mk_Entry "r1" "Ars Technica" None "".
Definition entry_r2 : Entry := mk_Entry "r2" "Ars Technica" None "".
End Samples.

(** ** Further descriptions

    The elapsed time of a datetime, the case analysis of the
    normaliser, and the diagnostics of a run, for the statements at the
    end of the file. *)



(** The timestamp the normaliser builds the date from: the published
    one when present and not [None], else the updated one. *)
Definition selected_timestamp (entry : Feedparser.entry)
  : option Datetime.struct_time :=
  match Feedparser.hasattr_and_truthy (Feedparser.published_parsed entry) with
  | Some t => Some t
  | None => Feedparser.hasattr_and_truthy (Feedparser.updated_parsed entry)
  end.

(** The first six items of [t] are a date and a time of day that the
    [datetime] constructor accepts. *)
Definition in_range (t : Datetime.struct_time) : bool :=
  Datetime.valid_datetime (utc_datetime t).

(** The [link] of the dictionary: the raw link, or the empty string. *)
Definition link_or_empty (entry : Feedparser.entry) : string :=
  match Feedparser.link entry with
  | Some l => l
  | None => ""
  end.

(** *** More sample data *)
Module MoreSamples.
Import Datetime.

(** A published time with a leap second, which [struct_time] can hold
    and [datetime] refuses; the updated time is fine. *)
Definition leap_second : Feedparser.entry :=
  Feedparser.mk_entry (Some "leap") (Some "https://example.org/leap")
    (Some (Some (Samples.st 2016 12 31 23 59 60)))
    (Some (Some (Samples.st 2024 3 2 11 0 0))).

(** Published a month ago, updated an hour ago. *)
Definition revised : Feedparser.entry :=
  Feedparser.mk_entry (Some "revised") None
    (Some (Some (Samples.st 2024 2 1 9 0 0)))
    (Some (Some (Samples.st 2024 3 2 11 0 0))).

Definition entry_revised : Entry :=
  mk_Entry "revised" "Wired"
    (Some (utc_datetime (Samples.st 2024 2 1 9 0 0))) "".


(** Five good entries, then one without a title. *)
Definition long_feed : list Feedparser.entry :=
  Samples.busy ++ [Samples.untitled (Samples.st 2024 3 2 9 30 0)].

Definition long_world (url : string) : outcome Feedparser.feed :=
  Return (Feedparser.mk_feed long_feed).

(** No feed can be reached. *)
Definition down_world (url : string) : outcome Feedparser.feed :=
  Raise Samples.URLError.

(** One feed holds an entry from the future and the revised entry. *)
Definition mixed_world (url : string) : outcome Feedparser.feed :=
  if String.eqb url "https://techcrunch.com/feed/"
  then Return (Feedparser.mk_feed
                 [Samples.published "b9" (Samples.st 2025 3 2 8 0 0)])
  else if String.eqb url "https://www.wired.com/feed/rss"
  then Return (Feedparser.mk_feed [revised])
  else Raise Samples.URLError.


(** A timestamp whose seconds do not fit a C [int]. *)
Definition huge_seconds : Feedparser.entry :=
  Feedparser.mk_entry (Some "huge") None
    (Some (Some (Samples.st 2024 3 2 11 0 2147483648))) None.

(** The first day a [datetime] can hold. *)
Definition first_day : datetime := mk_datetime 1 1 1 15 30 0 0 (Some utc).
End MoreSamples.

(** The six integers handed to the [datetime] constructor all fit a C
    [int]. *)
Definition fits_c_int (t : Datetime.struct_time) : bool :=
  forallb (fun x => (Datetime.INT_MIN <=? x) && (x <=? Datetime.INT_MAX))
    [ Datetime.tm_year t; Datetime.tm_mon t; Datetime.tm_mday t;
      Datetime.tm_hour t; Datetime.tm_min t; Datetime.tm_sec t ].

(** The class of the exception for a timestamp the constructor
    refuses: [OverflowError] when an integer does not fit a C [int],
    [ValueError] when all fit and one is outside its calendar range. *)
Definition refusal_class (t : Datetime.struct_time) : string :=
  if fits_c_int t then "ValueError" else "OverflowError".

(** What the reporter hands to [print], call by call: as [render], with
    the date as [strftime] gives it. *)
Definition printed_date (d : option Datetime.datetime) : string :=
  match d with
  | Some d => Datetime.strftime_ymd_hm_utc d
  | None => "Unknown"
  end.

Fixpoint printed_items (i : nat) (items : list Entry) : list string :=
  match items with
  | [] => []
  | item :: rest =>
      [ str_nat i +++ ". " +++ headline item;
        "   Source: " +++ source item;
        "   Date: " +++ printed_date (date item);
        "" ] ++ printed_items (S i) rest
  end.

Definition printed (top : list Entry) : list string :=
  ("Top " +++ str_nat (List.length top) +++ " Technology News Headlines" +++ LF)
  :: str_mul "=" 80
  :: printed_items 1 top.


(** The line a feed contributes to the output: none when what stands
    inside [try:] returns, the diagnostic when it raises. *)
Definition failure_line (parse : string -> outcome Feedparser.feed)
  (f : string * string) : list string :=
  match fetch_feed_try parse (fst f) (snd f) [] with
  | (Raise e, _) => ["Error fetching " +++ snd f +++ ": " +++ exn_str e]
  | (Return _, _) => []
  end.

(** ** The monad and the loops *)

Lemma traverse_length {A B} (f : A -> outcome B) (l : list A) (ys : list B) :
  traverse f l = Return ys -> List.length ys = List.length l.
Proof.
  revert ys; induction l as [|x l IH]; intros ys; simpl.
  - intros [= <-]; reflexivity.
  - destruct (f x) as [y|e]; simpl; [|discriminate].
    destruct (traverse f l) as [ys'|e]; simpl; [|discriminate].
    intros [= <-]; simpl; f_equal; apply IH; reflexivity.
Qed.

Lemma traverse_Forall2 {A B} (f : A -> outcome B) (l : list A) (ys : list B) :
  traverse f l = Return ys <-> Forall2 (fun x y => f x = Return y) l ys.
Proof.
  revert ys; induction l as [|x l IH]; intros ys; simpl.
  - split.
    + intros [= <-]; constructor.
    + intros H; inversion H; reflexivity.
  - split.
    + destruct (f x) as [y|e] eqn:Hx; simpl; [|discriminate].
      destruct (traverse f l) as [ys'|e] eqn:Hl; simpl; [|discriminate].
      intros [= <-]; constructor; [assumption|].
      apply IH; reflexivity.
    + intros H; inversion H as [|x' y l' ys' Hx Hl]; subst.
      rewrite Hx; simpl.
      apply IH in Hl; rewrite Hl; reflexivity.
Qed.

Lemma traverse_raises {A B} (f : A -> outcome B) (l : list A) (x : A) (e : exn) :
  In x l -> f x = Raise e -> exists e', traverse f l = Raise e'.
Proof.
  induction l as [|y l IH]; simpl; [contradiction|].
  intros [->|Hin] Hx.
  - rewrite Hx; simpl; eauto.
  - destruct (f y) as [z|e1]; simpl; [|eauto].
    destruct (IH Hin Hx) as [e' ->]; simpl; eauto.
Qed.

Lemma traverse_In {A B} (f : A -> outcome B) (l : list A) (ys : list B) (y : B) :
  traverse f l = Return ys -> In y ys -> exists x, In x l /\ f x = Return y.
Proof.
  rewrite traverse_Forall2; induction 1 as [|x y' l ys Hx _ IH]; simpl.
  - contradiction.
  - intros [<-|Hin]; [eauto|].
    destruct (IH Hin) as (x' & ? & ?); eauto.
Qed.

Lemma In_firstn {A} (n : nat) (l : list A) (x : A) : In x (firstn n l) -> In x l.
Proof.
  intros H; rewrite <- (firstn_skipn n l); apply in_or_app; left; assumption.
Qed.

(** The loop of [fetch_feed] appends the mapped entries, or raises. *)
Lemma for_in_append {A B} (f : A -> outcome B) (l : list A) (acc : list B)
    (out : stdout) :
  for_in l (fun x acc => y <- lift (f x) ;; ret (acc ++ [y])) acc out
  = (ys <~ traverse f l ;; Return (acc ++ ys), out).
Proof.
  revert acc; induction l as [|x l IH]; intros acc; simpl.
  - unfold ret; rewrite app_nil_r; reflexivity.
  - unfold bind at 1, lift at 1.
    destruct (f x) as [y|e]; simpl; [|reflexivity].
    unfold bind at 1, ret at 1.
    rewrite IH.
    destruct (traverse f l) as [ys|e]; simpl; [|reflexivity].
    rewrite <- app_assoc; reflexivity.
Qed.

(** A loop whose body filters: it appends the elements that pass. *)
Lemma for_in_filter {A} (p : A -> bool) (l acc : list A) (out : stdout) :
  for_in l (fun x acc => if p x then ret (acc ++ [x]) else ret acc) acc out
  = (Return (acc ++ filter p l), out).
Proof.
  revert acc; induction l as [|x l IH]; intros acc; simpl.
  - rewrite app_nil_r; reflexivity.
  - unfold bind; destruct (p x); unfold ret at 1; rewrite IH.
    + rewrite <- app_assoc; reflexivity.
    + reflexivity.
Qed.

Section Fetch_facts.
Variable parse : string -> outcome Feedparser.feed.

Lemma fetch_feed_try_eq url source_name out :
  fetch_feed_try parse url source_name out
  = (fetch_outcome parse url source_name, out).
Proof.
  unfold fetch_feed_try, fetch_outcome, bind at 1, lift at 1.
  destruct (parse url) as [feed|e]; cbn [obind]; [|reflexivity].
  unfold bind at 1; rewrite for_in_append; cbn [app].
  destruct (traverse _ _); reflexivity.
Qed.

Lemma fetch_feed_eq url source_name out :
  fetch_feed parse url source_name out
  = (Return (fetch_feed_result parse url source_name),
     out ++ fetch_feed_output parse url source_name).
Proof.
  unfold fetch_feed, try_except; rewrite fetch_feed_try_eq.
  unfold fetch_feed_result, fetch_feed_output.
  destruct (fetch_outcome parse url source_name) as [entries|e].
  - rewrite app_nil_r; reflexivity.
  - reflexivity.
Qed.

Lemma main_feed_eq cutoff_time f all_entries out :
  main_feed parse cutoff_time f all_entries out
  = (Return (all_entries
             ++ filter (is_recent cutoff_time)
                  (fetch_feed_result parse (fst f) (snd f))),
     out ++ fetch_feed_output parse (fst f) (snd f)).
Proof.
  destruct f as [url source_name]; unfold main_feed, bind.
  rewrite fetch_feed_eq, for_in_filter; reflexivity.
Qed.

Lemma main_loop_eq cutoff_time fs all_entries out :
  for_in fs (main_feed parse cutoff_time) all_entries out
  = (Return (all_entries ++ filter (is_recent cutoff_time) (fetched parse fs)),
     out ++ diagnostics parse fs).
Proof.
  revert all_entries out; induction fs as [|f fs IH]; intros all_entries out.
  - simpl; rewrite !app_nil_r; reflexivity.
  - simpl; unfold bind; rewrite main_feed_eq, IH.
    unfold fetched, diagnostics; simpl.
    rewrite filter_app, <- !app_assoc; reflexivity.
Qed.
End Fetch_facts.

(** ** The entry normaliser *)
Section Normalize_facts.
Import Datetime.

Lemma _days_in_month_le y m : _days_in_month y m <= 31.
Proof.
  unfold _days_in_month.
  destruct ((m =? 2) && _is_leap y)%bool; [lia|].
  unfold _DAYS_IN_MONTH.
  generalize (Z.to_nat m) as k; intros k.
  do 13 (destruct k as [|k]; [simpl; lia|]).
  destruct k; simpl; lia.
Qed.

Lemma as_int_Return x v :
  as_int x = Return v -> v = x /\ INT_MIN <= x <= INT_MAX.
Proof.
  unfold as_int, INT_MIN, INT_MAX.
  destruct ((x <? LONG_MIN) || (LONG_MAX <? x))%bool; [discriminate|].
  destruct (Z.ltb_spec 2147483647 x); [discriminate|].
  destruct (Z.ltb_spec x (-2147483648)); [discriminate|].
  intros [= <-]; lia.
Qed.

Lemma as_int_fits x : INT_MIN <= x <= INT_MAX -> as_int x = Return x.
Proof.
  unfold as_int, INT_MIN, INT_MAX, LONG_MIN, LONG_MAX; intros Hx.
  destruct (Z.ltb_spec x (-9223372036854775808)); [lia|].
  destruct (Z.ltb_spec 9223372036854775807 x); [lia|]; cbn [orb].
  destruct (Z.ltb_spec 2147483647 x); [lia|].
  destruct (Z.ltb_spec x (-2147483648)); [lia|reflexivity].
Qed.

(** An integer that does not fit raises [OverflowError]. *)
Lemma as_int_overflow x :
  ~ (INT_MIN <= x <= INT_MAX) ->
  exists msg, as_int x = Raise (OverflowError msg).
Proof.
  unfold as_int, INT_MIN, INT_MAX; intros Hx.
  destruct ((x <? LONG_MIN) || (LONG_MAX <? x))%bool; [eauto|].
  destruct (Z.ltb_spec 2147483647 x); [eauto|].
  destruct (Z.ltb_spec x (-2147483648)); [eauto|lia].
Qed.

Lemma new_datetime_Return y m d H M S tz dt :
  new_datetime y m d H M S tz = Return dt ->
  dt = mk_datetime y m d H M S 0 tz /\ valid_datetime dt = true.
Proof.
  unfold new_datetime.
  repeat match goal with
         | |- context [as_int ?x] =>
             let E := fresh "E" in
             destruct (as_int x) as [?|?] eqn:E; cbn [obind]; [|discriminate];
             apply as_int_Return in E as [-> _]
         end.
  repeat match goal with
         | |- context [if negb ?c then _ else _] =>
             destruct c eqn:?; cbn [negb]; [|discriminate]
         end.
  intros [= <-]; split; [reflexivity|].
  unfold valid_datetime; cbn [year month day hour minute second microsecond].
  repeat match goal with
         | H : (_ && _)%bool = true |- _ =>
             apply andb_true_iff in H; destruct H as [? ?]
         end.
  repeat (apply andb_true_iff; split); assumption || reflexivity.
Qed.

Lemma new_datetime_valid y m d H M S tz :
  valid_datetime (mk_datetime y m d H M S 0 tz) = true ->
  new_datetime y m d H M S tz = Return (mk_datetime y m d H M S 0 tz).
Proof.
  unfold valid_datetime; cbn [year month day hour minute second microsecond].
  intros Hv.
  repeat match goal with
         | H : (_ && _)%bool = true |- _ =>
             apply andb_true_iff in H; destruct H as [H ?]
         end.
  pose proof (_days_in_month_le y m) as Hdim.
  unfold new_datetime.
  rewrite !as_int_fits; cbn [obind].
  2-7: unfold INT_MIN, INT_MAX, MINYEAR, MAXYEAR in *;
    repeat match goal with
           | H : (_ <=? _) = true |- _ => apply Z.leb_le in H
           end; lia.
  repeat match goal with
         | H : ?c = true |- context [?c] => rewrite H
         end.
  reflexivity.
Qed.

(** The date of an entry: which raw field it comes from. *)
Lemma get_pub_date_Return entry pub_date :
  get_pub_date entry = Return pub_date ->
  match Feedparser.hasattr_and_truthy (Feedparser.published_parsed entry) with
  | Some t => pub_date = Some (utc_datetime t)
  | None =>
      match Feedparser.hasattr_and_truthy (Feedparser.updated_parsed entry) with
      | Some t => pub_date = Some (utc_datetime t)
      | None => pub_date = None
      end
  end.
Proof.
  unfold get_pub_date, datetime_of_struct_time.
  destruct (Feedparser.hasattr_and_truthy (Feedparser.published_parsed entry))
    as [t|];
    [|destruct (Feedparser.hasattr_and_truthy (Feedparser.updated_parsed entry))
        as [t|]].
  3: intros [= <-]; reflexivity.
  all: destruct (new_datetime _ _ _ _ _ _ _) as [d|e] eqn:Hd;
    cbn [obind]; [|discriminate];
    intros [= <-]; apply new_datetime_Return in Hd as [-> _]; reflexivity.
Qed.

Lemma get_pub_date_valid entry d :
  get_pub_date entry = Return (Some d) ->
  valid_datetime d = true /\ tzinfo d = Some utc.
Proof.
  unfold get_pub_date, datetime_of_struct_time.
  destruct (Feedparser.hasattr_and_truthy (Feedparser.published_parsed entry))
    as [t|];
    [|destruct (Feedparser.hasattr_and_truthy (Feedparser.updated_parsed entry))
        as [t|]].
  3: discriminate.
  all: destruct (new_datetime _ _ _ _ _ _ _) as [d'|e] eqn:Hd;
    cbn [obind]; [|discriminate];
    intros [= <-]; apply new_datetime_Return in Hd as [Heq Hv];
    split; [assumption | rewrite Heq; reflexivity].
Qed.

(** What a dictionary built by [fetch_feed] holds. *)
Lemma normalize_entry_Return source_name entry e :
  normalize_entry source_name entry = Return e ->
  get_pub_date entry = Return (date e)
  /\ Feedparser.title entry = Some (headline e)
  /\ source e = source_name
  /\ link e = match Feedparser.link entry with Some l => l | None => "" end.
Proof.
  unfold normalize_entry.
  destruct (get_pub_date entry) as [pub_date|e1]; cbn [obind]; [|discriminate].
  destruct (Feedparser.title entry) as [title|]; cbn [obind Feedparser.getattr];
    [|discriminate].
  intros [= <-]; cbn [date headline source link].
  destruct (Feedparser.link entry); repeat split; reflexivity.
Qed.

(** The normaliser raises exactly when the date constructor does or
    the title is missing. *)
Lemma normalize_entry_returns source_name entry pub_date title :
  get_pub_date entry = Return pub_date ->
  Feedparser.title entry = Some title ->
  exists e, normalize_entry source_name entry = Return e.
Proof.
  intros Hd Ht; unfold normalize_entry; rewrite Hd, Ht; cbn; eauto.
Qed.

Lemma normalize_entry_no_title source_name entry :
  Feedparser.title entry = None ->
  exists e, normalize_entry source_name entry = Raise e.
Proof.
  intros Ht; unfold normalize_entry.
  destruct (get_pub_date entry) as [pub_date|e1]; cbn [obind]; [|eauto].
  rewrite Ht; cbn; eauto.
Qed.
End Normalize_facts.

(** ** The order on datetimes *)
Section Order_facts.
Import Datetime.

Lemma _cmp_refl a : _cmp a a = Eq.
Proof.
  induction a as [|x a IH]; simpl; [reflexivity|].
  rewrite Z.compare_refl; assumption.
Qed.

Lemma _cmp_Eq a b : _cmp a b = Eq -> a = b.
Proof.
  revert b; induction a as [|x a IH]; intros [|y b]; simpl;
    try discriminate; [reflexivity|].
  destruct (Z.compare_spec x y) as [->| |]; try discriminate.
  intros H; f_equal; apply IH; assumption.
Qed.

Lemma _cmp_opp a b : _cmp b a = CompOpp (_cmp a b).
Proof.
  revert b; induction a as [|x a IH]; intros [|y b]; simpl;
    try reflexivity.
  rewrite (Z.compare_antisym x y).
  destruct (x ?= y); simpl; auto.
Qed.

Lemma _cmp_trans a b c : _cmp a b <> Lt -> _cmp b c <> Lt -> _cmp a c <> Lt.
Proof.
  revert b c; induction a as [|x a IH]; intros [|y b] [|z c]; simpl;
    try congruence.
  destruct (Z.compare_spec x y), (Z.compare_spec y z), (Z.compare_spec x z);
    subst; try congruence; try lia; eauto.
Qed.

Lemma datetime_ge_refl a : datetime_ge a a = true.
Proof. unfold datetime_ge, datetime_cmp; rewrite _cmp_refl; reflexivity. Qed.

Lemma datetime_ge_total a b : datetime_ge a b = true \/ datetime_ge b a = true.
Proof.
  unfold datetime_ge, datetime_cmp.
  rewrite (_cmp_opp (fields a) (fields b)).
  destruct (_cmp (fields a) (fields b)); simpl; auto.
Qed.

Lemma datetime_ge_trans a b c :
  datetime_ge a b = true -> datetime_ge b c = true -> datetime_ge a c = true.
Proof.
  unfold datetime_ge, datetime_cmp; intros Hab Hbc.
  assert (H : _cmp (fields a) (fields c) <> Lt).
  { apply (_cmp_trans _ (fields b)).
    - destruct (_cmp (fields a) (fields b)); congruence.
    - destruct (_cmp (fields b) (fields c)); congruence. }
  destruct (_cmp (fields a) (fields c)); congruence.
Qed.

(** Two datetimes that are each at least the other have the same
    fields. *)
Lemma datetime_ge_antisym a b :
  datetime_ge a b = true -> datetime_ge b a = true -> fields a = fields b.
Proof.
  unfold datetime_ge, datetime_cmp.
  rewrite (_cmp_opp (fields a) (fields b)).
  destruct (_cmp (fields a) (fields b)) eqn:H; simpl; try discriminate.
  intros _ _; apply _cmp_Eq; assumption.
Qed.

Lemma datetime_lt_ge a b : datetime_lt a b = negb (datetime_ge a b).
Proof.
  unfold datetime_lt, datetime_ge; destruct (datetime_cmp a b); reflexivity.
Qed.

(** A datetime with year at least 1 and the other fields within their
    ranges is not before [datetime.min]. *)
Lemma datetime_ge_min d :
  valid_datetime d = true -> datetime_ge d datetime_min_utc = true.
Proof.
  unfold valid_datetime, MINYEAR; intros Hv.
  repeat match goal with
         | H : (_ && _)%bool = true |- _ =>
             apply andb_true_iff in H; destruct H as [H ?]
         end.
  repeat match goal with
         | H : (_ <=? _) = true |- _ => apply Z.leb_le in H
         end.
  unfold datetime_ge, datetime_cmp, fields, datetime_min_utc; simpl.
  repeat match goal with
         | |- context [?x ?= ?y] =>
             destruct (Z.compare_spec x y); try lia; try reflexivity
         end.
Qed.
End Order_facts.

(** ** The sort *)
Section Sort_facts.
Context {A K : Type}.
Variable key : A -> K.
Variable geb : K -> K -> bool.
Hypothesis geb_total : forall a b, geb a b = true \/ geb b a = true.
Hypothesis geb_trans :
  forall a b c, geb a b = true -> geb b c = true -> geb a c = true.

Lemma insert_desc_Permutation x l : Permutation (x :: l) (insert_desc key geb x l).
Proof.
  induction l as [|y l IH]; simpl; [apply Permutation_refl|].
  destruct (geb (key x) (key y)); [apply Permutation_refl|].
  eapply perm_trans; [apply perm_swap|].
  apply perm_skip; assumption.
Qed.

Lemma sort_Permutation l : Permutation l (sort_by_key_reverse key geb l).
Proof.
  induction l as [|x l IH]; simpl; [constructor|].
  eapply perm_trans; [apply perm_skip, IH|].
  apply insert_desc_Permutation.
Qed.

Lemma sort_In l x : In x (sort_by_key_reverse key geb l) <-> In x l.
Proof.
  split; apply Permutation_in;
    [apply Permutation_sym|]; apply sort_Permutation.
Qed.

Lemma sort_length l : List.length (sort_by_key_reverse key geb l) = List.length l.
Proof. symmetry; apply Permutation_length, sort_Permutation. Qed.

Lemma insert_desc_descending x l :
  descending key geb l -> descending key geb (insert_desc key geb x l).
Proof.
  induction 1 as [|y l Hy Hl IH]; simpl.
  - repeat constructor.
  - destruct (geb (key x) (key y)) eqn:Hxy.
    + constructor; [|constructor; assumption].
      constructor; [assumption|].
      eapply Forall_impl; [|exact Hy].
      intros z Hz; cbv beta in Hz; eauto.
    + constructor; [|assumption].
      assert (Hyx : geb (key y) (key x) = true)
        by (destruct (geb_total (key y) (key x)); congruence).
      eapply Permutation_Forall; [apply insert_desc_Permutation|].
      constructor; assumption.
Qed.

Lemma sort_descending l : descending key geb (sort_by_key_reverse key geb l).
Proof.
  induction l as [|x l IH]; simpl; [constructor|].
  apply insert_desc_descending; assumption.
Qed.

(** Stability: elements that compare equal pairwise (here: that all
    satisfy [p]) stay in the order they had. *)
Section Stable.
Variable p : A -> bool.
Hypothesis p_tied :
  forall x y, p x = true -> p y = true -> geb (key x) (key y) = true.

Lemma insert_desc_filter x l :
  filter p (insert_desc key geb x l) = filter p (x :: l).
Proof.
  induction l as [|y l IH]; [reflexivity|].
  cbn [insert_desc].
  destruct (geb (key x) (key y)) eqn:Hxy; [reflexivity|].
  cbn [filter] in *; rewrite IH.
  destruct (p x) eqn:Hx, (p y) eqn:Hy; try reflexivity.
  rewrite (p_tied x y Hx Hy) in Hxy; discriminate.
Qed.

Lemma sort_filter l : filter p (sort_by_key_reverse key geb l) = filter p l.
Proof.
  induction l as [|x l IH]; [reflexivity|].
  cbn [sort_by_key_reverse]; rewrite insert_desc_filter.
  cbn [filter]; rewrite IH; reflexivity.
Qed.
End Stable.

Lemma sort_with_key k l :
  with_key key geb k (sort_by_key_reverse key geb l) = with_key key geb k l.
Proof.
  apply sort_filter; intros x y Hx Hy.
  apply andb_true_iff in Hx as [Hx _], Hy as [_ Hy]; eauto.
Qed.

(** In a descending list, an earlier position holds a key at least as
    large. *)
Lemma descending_nth_error l i j a b :
  descending key geb l -> (i < j)%nat ->
  nth_error l i = Some a -> nth_error l j = Some b ->
  geb (key a) (key b) = true.
Proof.
  intros Hl; revert i j; induction Hl as [|x l Hx Hl IH]; intros i j Hij Hi Hj.
  - destruct i; discriminate.
  - destruct j as [|j]; [lia|].
    destruct i as [|i]; simpl in Hi, Hj.
    + injection Hi as <-.
      rewrite Forall_forall in Hx; apply Hx.
      eapply nth_error_In; eassumption.
    + apply (IH i j); [lia|assumption|assumption].
Qed.

(** The first [n] of a descending list are the [n] largest. *)
Lemma descending_firstn_skipn l n a b :
  descending key geb l -> In a (firstn n l) -> In b (skipn n l) ->
  geb (key a) (key b) = true.
Proof.
  intros Hl; revert n; induction Hl as [|x l Hx Hl IH]; intros n Ha Hb.
  - destruct n; contradiction.
  - destruct n as [|n]; [contradiction|].
    simpl in Ha, Hb; destruct Ha as [<-|Ha].
    + rewrite Forall_forall in Hx; apply Hx.
      rewrite <- (firstn_skipn n l); apply in_or_app; auto.
    + apply (IH n); assumption.
Qed.
End Sort_facts.

(** ** The report *)
Section Report_facts.
Import Datetime.





Lemma print_item_eq i item out :
  print_item (i, item) tt out
  = (Return tt,
     out ++ [ str_nat i +++ ". " +++ headline item;
              "   Source: " +++ source item;
              "   Date: " +++ printed_date (date item);
              "" ]).
Proof.
  unfold print_item, bind, print.
  rewrite <- !app_assoc; reflexivity.
Qed.

(** The loop of the reporter prints [printed_items], whatever the
    entries. *)
Lemma print_items_printed items i out :
  for_in (enumerate items i) print_item tt out
  = (Return tt, out ++ printed_items i items).
Proof.
  revert i out; induction items as [|item items IH]; intros i out.
  - cbn [enumerate for_in printed_items]; rewrite app_nil_r; reflexivity.
  - cbn [enumerate for_in printed_items]; unfold bind at 1.
    rewrite print_item_eq, IH, <- !app_assoc; reflexivity.
Qed.

Lemma print_items_total items i out :
  exists out', for_in (enumerate items i) print_item tt out = (Return tt, out').
Proof. rewrite print_items_printed; eauto. Qed.

Lemma report_printed top out :
  report top out = (Return tt, out ++ printed top).
Proof.
  unfold report, bind, print; rewrite print_items_printed.
  rewrite <- !app_assoc; reflexivity.
Qed.




End Report_facts.

(** ** The cutoff time *)
Section Cutoff_facts.
Import Datetime.

Ltac eval_nth :=
  repeat match goal with
         | |- context [nth (Z.to_nat ?k) ?l ?d] =>
             let v := eval vm_compute in (nth (Z.to_nat k) l d) in
             change (nth (Z.to_nat k) l d) with v
         | H : context [nth (Z.to_nat ?k) ?l ?d] |- _ =>
             let v := eval vm_compute in (nth (Z.to_nat k) l d) in
             change (nth (Z.to_nat k) l d) with v in H
         end.

Ltac bool_facts :=
  repeat match goal with
         | H : (_ && _)%bool = true |- _ =>
             apply andb_true_iff in H; destruct H as [H ?]
         | H : (_ =? _) = true |- _ => apply Z.eqb_eq in H
         | H : (_ <? _) = true |- _ => apply Z.ltb_lt in H
         | H : (_ <? _) = false |- _ => apply Z.ltb_ge in H
         | H : (_ <=? _) = true |- _ => apply Z.leb_le in H
         end.

Lemma valid_datetime_bounds d :
  valid_datetime d = true ->
  1 <= year d <= 9999 /\ 1 <= month d <= 12
  /\ 1 <= day d <= _days_in_month (year d) (month d)
  /\ 0 <= hour d <= 23 /\ 0 <= minute d <= 59 /\ 0 <= second d <= 59
  /\ 0 <= microsecond d <= 999999.
Proof.
  unfold valid_datetime, MINYEAR, MAXYEAR; intros Hv; bool_facts; lia.
Qed.

(** The ordinal of a date lies between 1 (0001-01-01) and
    [_MAXORDINAL] (9999-12-31). *)
Lemma _ymd2ord_bounds y m d :
  1 <= y <= 9999 -> 1 <= m <= 12 -> 1 <= d <= _days_in_month y m ->
  1 <= _ymd2ord y m d <= _MAXORDINAL.
Proof.
  intros Hy Hm Hd.
  unfold _ymd2ord, _days_before_year, _days_before_month, _days_in_month,
    _is_leap, _MAXORDINAL in *.
  assert (Hcases : m = 1 \/ m = 2 \/ m = 3 \/ m = 4 \/ m = 5 \/ m = 6 \/ m = 7
                   \/ m = 8 \/ m = 9 \/ m = 10 \/ m = 11 \/ m = 12) by lia.
  repeat (destruct Hcases as [->|Hcases]); try subst m; eval_nth;
    repeat match goal with
           | H : context [if ?c then _ else _] |- _ => destruct c eqn:?
           | |- context [if ?c then _ else _] => destruct c eqn:?
           end;
    bool_facts; try discriminate; try lia;
    try (Z.div_mod_to_equations; lia).
Qed.

Ltac eval_if :=
  repeat match goal with
         | |- context [if ?c then ?a else ?b] =>
             let v := eval vm_compute in c in
             lazymatch v with
             | true => change (if c then a else b) with a
             | false => change (if c then a else b) with b
             end
         end.

(** The year [400 a + 100 b + 4 c + e + 1]: the days before it, and
    whether it is a leap year. *)
Lemma _days_before_year_decomp a b c e :
  0 <= a -> 0 <= b < 4 -> 0 <= c < 25 -> 0 <= e < 4 ->
  _days_before_year (400 * a + 100 * b + 4 * c + e + 1)
  = 146097 * a + 36524 * b + 1461 * c + 365 * e.
Proof.
  intros; unfold _days_before_year; Z.div_mod_to_equations; lia.
Qed.

Lemma _is_leap_decomp a b c e :
  0 <= a -> 0 <= b < 4 -> 0 <= c < 25 -> 0 <= e < 4 ->
  _is_leap (400 * a + 100 * b + 4 * c + e + 1)
  = ((e =? 3) && (negb (c =? 24) || (b =? 3)))%bool.
Proof.
  intros; unfold _is_leap.
  destruct (Z.eqb_spec ((400 * a + 100 * b + 4 * c + e + 1) mod 4) 0),
    (Z.eqb_spec ((400 * a + 100 * b + 4 * c + e + 1) mod 100) 0),
    (Z.eqb_spec ((400 * a + 100 * b + 4 * c + e + 1) mod 400) 0),
    (Z.eqb_spec e 3), (Z.eqb_spec c 24), (Z.eqb_spec b 3);
    cbn; try reflexivity; exfalso; Z.div_mod_to_equations; lia.
Qed.

(** The month and the day that [_ord2ymd] finds for day [k] (from 0)
    of a year. *)
Lemma month_of_day y k (leapyear : bool) :
  _is_leap y = leapyear ->
  0 <= k < 365 + (if leapyear then 1 else 0) ->
  let m := Z.shiftr (k + 50) 5 in
  let preceding :=
    nth (Z.to_nat m) _DAYS_BEFORE_MONTH 0
    + (if (2 <? m) && leapyear then 1 else 0) in
  let '(m', d') :=
    if k <? preceding then
      let m := m - 1 in
      let preceding :=
        preceding
        - (nth (Z.to_nat m) _DAYS_IN_MONTH 0
           + (if (m =? 2) && leapyear then 1 else 0)) in
      (m, k - preceding + 1)
    else (m, k - preceding + 1) in
  1 <= m' <= 12 /\ 1 <= d' <= _days_in_month y m'
  /\ _days_before_month y m' + d' = k + 1.
Proof.
  intros Hleap Hk.
  rewrite Z.shiftr_div_pow2 by lia; change (2 ^ 5) with 32.
  assert (Hm : 1 <= (k + 50) / 32 <= 12)
    by (destruct leapyear; Z.div_mod_to_equations; lia).
  remember ((k + 50) / 32) as m eqn:Em.
  assert (Hk' : 32 * m <= k + 50 < 32 * m + 32)
    by (subst m; Z.div_mod_to_equations; lia).
  clear Em.
  unfold _days_in_month, _days_before_month; rewrite Hleap.
  assert (Hcases : m = 1 \/ m = 2 \/ m = 3 \/ m = 4 \/ m = 5 \/ m = 6 \/ m = 7
                   \/ m = 8 \/ m = 9 \/ m = 10 \/ m = 11 \/ m = 12) by lia.
  repeat (destruct Hcases as [->|Hcases]); try subst m;
    destruct leapyear; cbv beta zeta; eval_nth; eval_if;
    match goal with
    | |- context [k <? ?p] => destruct (Z.ltb_spec k p)
    end; cbv beta iota zeta; eval_nth; eval_if; lia.
Qed.

(** [date.fromordinal] gives a date, and the ordinal of that date is
    the number it was given. *)
Lemma _ord2ymd_spec n :
  1 <= n <= _MAXORDINAL ->
  let '(y, m, d) := _ord2ymd n in
  1 <= y <= 9999 /\ 1 <= m <= 12 /\ 1 <= d <= _days_in_month y m
  /\ _ymd2ord y m d = n.
Proof.
  unfold _MAXORDINAL; intros Hn.
  unfold _ord2ymd, _DI400Y, _DI100Y, _DI4Y; cbv zeta.
  pose proof (Z.div_mod (n - 1) 146097 ltac:(lia)) as E1.
  pose proof (Z.mod_pos_bound (n - 1) 146097 ltac:(lia)) as B1.
  set (a := (n - 1) / 146097) in *; set (r1 := (n - 1) mod 146097) in *.
  pose proof (Z.div_mod r1 36524 ltac:(lia)) as E2.
  pose proof (Z.mod_pos_bound r1 36524 ltac:(lia)) as B2.
  set (b := r1 / 36524) in *; set (r2 := r1 mod 36524) in *.
  pose proof (Z.div_mod r2 1461 ltac:(lia)) as E3.
  pose proof (Z.mod_pos_bound r2 1461 ltac:(lia)) as B3.
  set (c := r2 / 1461) in *; set (r3 := r2 mod 1461) in *.
  pose proof (Z.div_mod r3 365 ltac:(lia)) as E4.
  pose proof (Z.mod_pos_bound r3 365 ltac:(lia)) as B4.
  set (e := r3 / 365) in *; set (k := r3 mod 365) in *.
  clearbody a r1 b r2 c r3 e k.
  assert (Ha : 0 <= a <= 24) by lia.
  assert (Hb : 0 <= b <= 4) by lia.
  assert (Hc : 0 <= c <= 24) by lia.
  assert (He : 0 <= e <= 4) by lia.
  destruct (Z.eqb_spec e 4) as [He4|He4]; [|destruct (Z.eqb_spec b 4) as [Hb4|Hb4]];
    cbn [orb]; cbv beta iota zeta.
  - (* 31 December of a year divisible by 4 *)
    replace (a * 400 + 1 + b * 100 + c * 4 + e - 1)
      with (400 * a + 100 * b + 4 * c + 3 + 1) by lia.
    assert (Hb3 : b < 4) by lia.
    assert (Hc23 : c < 24) by lia.
    unfold _ymd2ord, _days_in_month, _days_before_month.
    rewrite _days_before_year_decomp, _is_leap_decomp by lia.
    destruct (Z.eqb_spec c 24); [lia|].
    eval_nth; eval_if; cbn [negb orb andb]; eval_if; lia.
  - (* 31 December of a year divisible by 400 *)
    replace (a * 400 + 1 + b * 100 + c * 4 + e - 1)
      with (400 * a + 100 * 3 + 4 * 24 + 3 + 1) by lia.
    unfold _ymd2ord, _days_in_month, _days_before_month.
    rewrite _days_before_year_decomp, _is_leap_decomp by lia.
    eval_nth; eval_if; lia.
  - set (leapyear := ((e =? 3) && (negb (c =? 24) || (b =? 3)))%bool).
    replace (a * 400 + 1 + b * 100 + c * 4 + e)
      with (400 * a + 100 * b + 4 * c + e + 1) by lia.
    set (y := 400 * a + 100 * b + 4 * c + e + 1).
    assert (Hleap : _is_leap y = leapyear)
      by (apply _is_leap_decomp; lia).
    assert (Hk : 0 <= k < 365 + (if leapyear then 1 else 0))
      by (destruct leapyear; lia).
    pose proof (month_of_day y k leapyear Hleap Hk) as Hmd.
    cbv zeta in Hmd.
    match type of Hmd with
    | context [k <? ?p] => destruct (k <? p)
    end; cbv beta iota in Hmd |- *;
      destruct Hmd as (Hm' & Hd' & Hsum);
      (split; [subst y; lia|]); (split; [assumption|]); (split; [assumption|]);
      unfold _ymd2ord; unfold y at 1;
      rewrite _days_before_year_decomp by lia; lia.
Qed.

(** [now - timedelta(hours=24)] exists for every clock value from
    0001-01-02 on: it is a proper datetime, one day earlier, with the
    time of day and the [tzinfo] of [now]. *)
Lemma cutoff_time_exists now :
  valid_datetime now = true -> 2 <= toordinal now ->
  exists cutoff_time,
    datetime_sub now (timedelta_hours 24) = Return cutoff_time
    /\ valid_datetime cutoff_time = true
    /\ toordinal cutoff_time = toordinal now - 1
    /\ hour cutoff_time = hour now /\ minute cutoff_time = minute now
    /\ second cutoff_time = second now
    /\ microsecond cutoff_time = microsecond now
    /\ tzinfo cutoff_time = tzinfo now.
Proof.
  intros Hv Hord.
  apply valid_datetime_bounds in Hv as (Hy & Hm & Hd & HH & HM & HS & Hus).
  pose proof (_ymd2ord_bounds _ _ _ Hy Hm Hd) as Hmax.
  fold (toordinal now) in Hmax; unfold _MAXORDINAL in Hmax.
  unfold datetime_sub.
  change (timedelta_hours 24) with (mk_timedelta 1 0 0).
  unfold total_microseconds; cbn [days seconds microseconds].
  set (us := (toordinal now * 86400
              + (hour now * 3600 + minute now * 60 + second now)) * 1000000
             + microsecond now - ((1 * 86400 + 0) * 1000000 + 0)).
  assert (Hdays : us / 86400000000 = toordinal now - 1)
    by (subst us; Z.div_mod_to_equations; lia).
  assert (Hrem : us mod 86400000000
                 = (hour now * 3600 + minute now * 60 + second now) * 1000000
                   + microsecond now)
    by (subst us; Z.div_mod_to_equations; lia).
  rewrite Hdays, Hrem.
  replace ((0 <? toordinal now - 1) && (toordinal now - 1 <=? _MAXORDINAL))%bool
    with true
    by (symmetry; apply andb_true_iff; unfold _MAXORDINAL; split;
        [apply Z.ltb_lt | apply Z.leb_le]; lia).
  pose proof (_ord2ymd_spec (toordinal now - 1)) as Hymd.
  destruct (_ord2ymd (toordinal now - 1)) as [[y m] d].
  destruct Hymd as (Hy' & Hm' & Hd' & Hord'); [unfold _MAXORDINAL; lia|].
  eexists; split; [reflexivity|].
  unfold toordinal at 1, valid_datetime, MINYEAR, MAXYEAR.
  cbn [year month day hour minute second microsecond tzinfo].
  split.
  { repeat (apply andb_true_iff; split); apply Z.leb_le;
      try (Z.div_mod_to_equations; lia). }
  split; [assumption|].
  repeat split; Z.div_mod_to_equations; lia.
Qed.

(** From 0001-01-03 on the cutoff time is later than [datetime.min]. *)
Lemma cutoff_time_after_min now cutoff_time :
  valid_datetime now = true -> 3 <= toordinal now ->
  datetime_sub now (timedelta_hours 24) = Return cutoff_time ->
  datetime_lt datetime_min_utc cutoff_time = true.
Proof.
  intros Hv Hord Hc.
  destruct (cutoff_time_exists now Hv ltac:(lia))
    as (c & Hc' & Hvc & Hordc & _).
  rewrite Hc in Hc'; injection Hc' as <-.
  apply valid_datetime_bounds in Hvc as (Hy & Hm & Hd & HH & HM & HS & Hus).
  assert (Hne : ~ (year cutoff_time = 1 /\ month cutoff_time = 1
                   /\ day cutoff_time = 1)).
  { intros (Ey & Em & Ed); unfold toordinal at 1 in Hordc.
    rewrite Ey, Em, Ed in Hordc; change (_ymd2ord 1 1 1) with 1 in Hordc; lia. }
  unfold datetime_lt, datetime_cmp, fields, datetime_min_utc, replace_tzinfo,
    datetime_min.
  cbn [_cmp year month day hour minute second microsecond].
  repeat match goal with
         | |- context [?x ?= ?y] =>
             destruct (Z.compare_spec x y); try lia; try reflexivity
         end.
Qed.
End Cutoff_facts.

(** ** The whole run *)
Section Main_facts.
Import Datetime.
Variable parse : string -> outcome Feedparser.feed.

Lemma fetch_feed_result_In url source_name e :
  In e (fetch_feed_result parse url source_name) ->
  exists feed entry,
    parse url = Return feed
    /\ In entry (firstn 5 (Feedparser.entries feed))
    /\ normalize_entry source_name entry = Return e.
Proof.
  unfold fetch_feed_result, fetch_outcome.
  destruct (parse url) as [feed|e1]; cbn [obind]; [|contradiction].
  destruct (traverse _ _) as [entries|e1] eqn:Ht; [|contradiction].
  intros Hin; destruct (traverse_In _ _ _ _ Ht Hin) as (entry & ? & ?).
  eauto.
Qed.

Lemma fetched_In fs e :
  In e (fetched parse fs) <->
  exists url source_name,
    In (url, source_name) fs /\ In e (fetch_feed_result parse url source_name).
Proof.
  unfold fetched; rewrite in_flat_map; split.
  - intros ([url source_name] & ? & ?); eauto.
  - intros (url & source_name & ? & ?); exists (url, source_name); auto.
Qed.


Lemma main_sorted_eq now cutoff_time out :
  datetime_sub now (timedelta_hours 24) = Return cutoff_time ->
  main_sorted parse now out
  = (Return (sorted_entries parse cutoff_time), out ++ diagnostics parse feeds).
Proof.
  intros Hc; unfold main_sorted, bind at 1, lift at 1; rewrite Hc.
  unfold bind; rewrite main_loop_eq; reflexivity.
Qed.

Lemma sorted_entries_In cutoff_time e :
  In e (sorted_entries parse cutoff_time) <-> In e (aggregate parse cutoff_time).
Proof. apply sort_In. Qed.


Lemma main_eq now cutoff_time out :
  datetime_sub now (timedelta_hours 24) = Return cutoff_time ->
  let top_10 := firstn 10 (sorted_entries parse cutoff_time) in
  main parse now out
  = (Return top_10, out ++ diagnostics parse feeds ++ printed top_10).
Proof.
  intros Hc top_10; unfold main, bind at 1.
  rewrite (main_sorted_eq _ _ _ Hc).
  unfold bind; fold top_10.
  rewrite report_printed, <- app_assoc; reflexivity.
Qed.

(** [main] returns for every clock value from 0001-01-02 on, whatever
    the feeds do. *)
Lemma main_returns now out :
  valid_datetime now = true -> 2 <= toordinal now ->
  exists top_10 out', main parse now out = (Return top_10, out').
Proof.
  intros Hv Hord.
  destruct (cutoff_time_exists now Hv Hord) as (cutoff_time & Hc & _).
  rewrite (main_eq now cutoff_time out Hc); eauto.
Qed.

(** When the clock is wrong enough for the subtraction to overflow,
    [main] stops with that exception before any feed is read. *)
Lemma main_overflow now e out :
  datetime_sub now (timedelta_hours 24) = Raise e ->
  main parse now out = (Raise e, out).
Proof.
  intros Hc; unfold main, main_sorted, bind, lift; rewrite Hc; reflexivity.
Qed.
End Main_facts.

(** ** Strings *)

Lemma append_nil_r (s : string) : s +++ "" = s.
Proof. induction s as [|c s IH]; simpl; [reflexivity|rewrite IH; reflexivity]. Qed.

Lemma append_assoc (s t u : string) : (s +++ t) +++ u = s +++ t +++ u.
Proof. induction s as [|c s IH]; simpl; [reflexivity|rewrite IH; reflexivity]. Qed.

Lemma diagnostic_contains_source source_name e :
  contains (diagnostic source_name e) source_name.
Proof. exists "Error fetching ", (": " +++ exn_str e); reflexivity. Qed.

Lemma diagnostic_contains_error source_name e :
  contains (diagnostic source_name e) (exn_str e).
Proof.
  exists ("Error fetching " +++ source_name +++ ": "), "".
  unfold diagnostic; rewrite append_nil_r, !append_assoc; reflexivity.
Qed.

(** The display names of [feeds] are distinct. *)
Lemma feeds_source_unique url1 url2 source_name :
  In (url1, source_name) feeds -> In (url2, source_name) feeds -> url1 = url2.
Proof.
  unfold feeds; simpl.
  intros H1 H2.
  repeat match goal with
         | H : _ \/ _ |- _ => destruct H as [H|H]
         | H : False |- _ => contradiction
         end;
    injection H1 as <- <-; inversion H2; reflexivity.
Qed.

Lemma fetched_app parse fs1 fs2 :
  fetched parse (fs1 ++ fs2) = fetched parse fs1 ++ fetched parse fs2.
Proof. unfold fetched; apply flat_map_app. Qed.

(** ** The fetch boundary *)

(** C1. Whenever what stands inside [try:] raises an exception [e] (the
    retrieval or the parsing by [feedparser.parse], or anything after
    it), [fetch_feed] prints one line, made of the source name and the
    text of [e], and returns the empty list.  No call of [fetch_feed]
    ever raises.  The loop over the feeds collects from a list with the
    failing feed exactly what it collects from the list without it, and
    [main] returns a result in which no entry carries the name of the
    failing feed. *)
Theorem fetch_feed_isolates_failure :
  forall (parse : string -> outcome Feedparser.feed)
         (url source_name : string) (e : exn) (out out1 : stdout),
    fetch_feed_try parse url source_name out = (Raise e, out1) ->
    fetch_feed parse url source_name out
    = (Return [], out ++ [diagnostic source_name e])
    /\ contains (diagnostic source_name e) source_name
    /\ contains (diagnostic source_name e) (exn_str e)
    /\ (forall url' source_name' out',
          exists entries out'',
            fetch_feed parse url' source_name' out' = (Return entries, out''))
    /\ (forall cutoff_time fs1 fs2 all_entries out',
          fst (for_in (fs1 ++ (url, source_name) :: fs2)
                 (main_feed parse cutoff_time) all_entries out')
          = fst (for_in (fs1 ++ fs2)
                   (main_feed parse cutoff_time) all_entries out'))
    /\ (forall now cutoff_time out',
          In (url, source_name) feeds ->
          Datetime.datetime_sub now (Datetime.timedelta_hours 24)
          = Return cutoff_time ->
          exists top_10 out'',
            main parse now out' = (Return top_10, out'')
            /\ In (diagnostic source_name e) out''
            /\ forall x, In x top_10 -> source x <> source_name).
Proof.
  intros parse url source_name e out out1 Htry.
  rewrite fetch_feed_try_eq in Htry; injection Htry as Ho _.
  assert (Hres : fetch_feed_result parse url source_name = [])
    by (unfold fetch_feed_result; rewrite Ho; reflexivity).
  assert (Hout : fetch_feed_output parse url source_name
                 = [diagnostic source_name e])
    by (unfold fetch_feed_output; rewrite Ho; reflexivity).
  split; [rewrite fetch_feed_eq, Hres, Hout; reflexivity|].
  split; [apply diagnostic_contains_source|].
  split; [apply diagnostic_contains_error|].
  split; [intros; rewrite fetch_feed_eq; eauto|].
  split.
  - intros cutoff_time fs1 fs2 all_entries out'.
    rewrite !main_loop_eq; cbn [fst].
    rewrite !fetched_app.
    change (fetched parse ((url, source_name) :: fs2))
      with (fetch_feed_result parse url source_name ++ fetched parse fs2).
    rewrite Hres; reflexivity.
  - intros now cutoff_time out' Hin Hc.
    rewrite (main_eq parse now cutoff_time out' Hc).
    eexists; eexists; split; [reflexivity|]; split.
    + apply in_or_app; right; apply in_or_app; left.
      unfold diagnostics; apply in_flat_map.
      exists (url, source_name); cbn [fst snd]; rewrite Hout; simpl; auto.
    + intros x Hx Hsrc.
      apply In_firstn, sorted_entries_In, filter_In in Hx as [Hx _].
      apply fetched_In in Hx as (url' & name' & Hin' & Hx).
      pose proof Hx as Hx'.
      apply fetch_feed_result_In in Hx' as (feed & entry & _ & _ & Hn).
      apply normalize_entry_Return in Hn as (_ & _ & Hs & _).
      rewrite Hsrc in Hs; subst name'.
      rewrite (feeds_source_unique url' url source_name Hin' Hin), Hres in Hx.
      contradiction.
Qed.

Lemma fetch_feed_isolates_failure_witness :
  fetch_feed Samples.world "https://www.theverge.com/rss/index.xml" "The Verge" []
  = (Return [], [] ++ ["Error fetching The Verge: <urlopen error timed out>"]).
Proof.
  apply (fetch_feed_isolates_failure Samples.world
           "https://www.theverge.com/rss/index.xml" "The Verge"
           Samples.URLError [] []).
  reflexivity.
Defined.

(** A feed that cannot be parsed is one case of the above. *)
Lemma parse_raises_try_raises parse url source_name e out :
  parse url = Raise e ->
  fetch_feed_try parse url source_name out = (Raise e, out).
Proof.
  intros H; rewrite fetch_feed_try_eq; unfold fetch_outcome; rewrite H.
  reflexivity.
Qed.

(** C2. A feed whose second item has no title: the first item is
    normalised, reading [entry.title] of the second raises
    [AttributeError], and [fetch_feed] returns no record at all, neither
    one with a default headline for the untitled item nor the records
    of its neighbours.  A missing link or missing dates in the same
    position are tolerated ([missing_link_and_dates_tolerated]). *)
Theorem missing_title_fails_whole_fetch :
  Feedparser.title (nth 1 Samples.wired (Samples.undated "")) = None
  /\ normalize_entry "Wired" (nth 0 Samples.wired (Samples.undated ""))
     = Return (mk_Entry "w1" "Wired"
                 (Some (utc_datetime (Samples.st 2024 3 2 9 0 0)))
                 "https://example.org/w1")
  /\ fetch_feed Samples.world "https://www.wired.com/feed/rss" "Wired" []
     = (Return [], ["Error fetching Wired: object has no attribute 'title'"]).
Proof. repeat split. Qed.

(** The sibling fields are read defensively: an entry with a title and
    neither link nor dates is normalised, with the defaults. *)
Lemma missing_link_and_dates_tolerated source_name title published updated :
  Feedparser.hasattr_and_truthy published = None ->
  Feedparser.hasattr_and_truthy updated = None ->
  normalize_entry source_name
    (Feedparser.mk_entry (Some title) None published updated)
  = Return (mk_Entry title source_name None "").
Proof.
  intros Hp Hu; unfold normalize_entry, get_pub_date; cbn [Feedparser.published_parsed Feedparser.updated_parsed].
  rewrite Hp, Hu; reflexivity.
Qed.

(** C6. For every raw entry that is normalised, the date of the record
    is the published timestamp when that is present and not [None],
    else the updated timestamp when that is present and not [None],
    else [None]; a date that is set carries [tzinfo = timezone.utc].
    An entry with only an updated timestamp gets that one. *)
Theorem timestamp_precedence :
  forall (source_name : string) (entry : Feedparser.entry) (e : Entry),
    normalize_entry source_name entry = Return e ->
    (forall t,
        Feedparser.hasattr_and_truthy (Feedparser.published_parsed entry) = Some t ->
        date e = Some (utc_datetime t))
    /\ (forall t,
        Feedparser.hasattr_and_truthy (Feedparser.published_parsed entry) = None ->
        Feedparser.hasattr_and_truthy (Feedparser.updated_parsed entry) = Some t ->
        date e = Some (utc_datetime t))
    /\ (Feedparser.hasattr_and_truthy (Feedparser.published_parsed entry) = None ->
        Feedparser.hasattr_and_truthy (Feedparser.updated_parsed entry) = None ->
        date e = None)
    /\ (forall d, date e = Some d -> Datetime.tzinfo d = Some Datetime.utc)
    /\ (forall t,
        Feedparser.published_parsed entry = None ->
        Feedparser.updated_parsed entry = Some (Some t) ->
        date e = Some (utc_datetime t)).
Proof.
  intros source_name entry e Hn.
  apply normalize_entry_Return in Hn as (Hd & _).
  pose proof (get_pub_date_Return _ _ Hd) as Hc.
  repeat split.
  - intros t Hp; rewrite Hp in Hc; assumption.
  - intros t Hp Hu; rewrite Hp, Hu in Hc; assumption.
  - intros Hp Hu; rewrite Hp, Hu in Hc; assumption.
  - intros d Hsome; rewrite Hsome in Hd.
    apply get_pub_date_valid in Hd; tauto.
  - intros t Hp Hu; rewrite Hp, Hu in Hc; assumption.
Qed.

Lemma timestamp_precedence_witness :
  date Samples.entry_a2 = Some (utc_datetime (Samples.st 2024 3 2 11 0 0)).
Proof.
  apply (timestamp_precedence "TechCrunch"
           (Samples.updated_only "a2" (Samples.st 2024 3 2 11 0 0))
           Samples.entry_a2);
    reflexivity.
Defined.

(** C7. [fetch_feed] always returns, and what it returns has at most
    five elements: it is empty, or it is the list of the records of the
    first five parsed entries, one per entry and in their order, so
    that nothing past the fifth entry is in it. *)
Theorem fetch_feed_first_five :
  forall (parse : string -> outcome Feedparser.feed)
         (url source_name : string) (out : stdout),
  exists entries out',
    fetch_feed parse url source_name out = (Return entries, out')
    /\ (List.length entries <= 5)%nat
    /\ (entries = []
        \/ exists feed,
            parse url = Return feed
            /\ Forall2 (fun entry e => normalize_entry source_name entry = Return e)
                 (firstn 5 (Feedparser.entries feed)) entries).
Proof.
  intros parse url source_name out; rewrite fetch_feed_eq.
  eexists; eexists; split; [reflexivity|].
  unfold fetch_feed_result, fetch_outcome.
  destruct (parse url) as [feed|e]; cbn [obind];
    [|split; [simpl; lia | left; reflexivity]].
  destruct (traverse _ _) as [entries|e] eqn:Ht;
    [|split; [simpl; lia | left; reflexivity]].
  split.
  - rewrite (traverse_length _ _ _ Ht); apply firstn_le_length.
  - right; exists feed; split; [reflexivity|].
    apply traverse_Forall2; assumption.
Qed.

(** C8. Every record returned by [fetch_feed] comes from one of the
    first five raw entries; its source is the display name given to
    [fetch_feed], its link is the raw link, or the empty string when the
    raw entry has none, and its date is [None] exactly when the raw
    entry has neither a published nor an updated timestamp, that is,
    when each of the two attributes is missing or holds [None]. *)
Theorem normalized_entry_invariant :
  forall (parse : string -> outcome Feedparser.feed)
         (url source_name : string) (out out' : stdout)
         (entries : list Entry) (e : Entry),
    fetch_feed parse url source_name out = (Return entries, out') ->
    In e entries ->
    source e = source_name
    /\ exists feed entry,
        parse url = Return feed
        /\ In entry (firstn 5 (Feedparser.entries feed))
        /\ normalize_entry source_name entry = Return e
        /\ (Feedparser.link entry = None -> link e = "")
        /\ (forall l, Feedparser.link entry = Some l -> link e = l)
        /\ (date e = None <->
            (Feedparser.published_parsed entry = None
             \/ Feedparser.published_parsed entry = Some None)
            /\ (Feedparser.updated_parsed entry = None
                \/ Feedparser.updated_parsed entry = Some None))
        /\ (forall t,
              Feedparser.published_parsed entry = Some (Some t) ->
              date e = Some (utc_datetime t))
        /\ (forall t,
              (Feedparser.published_parsed entry = None
               \/ Feedparser.published_parsed entry = Some None) ->
              Feedparser.updated_parsed entry = Some (Some t) ->
              date e = Some (utc_datetime t)).
Proof.
  intros parse url source_name out out' entries e Hf Hin.
  rewrite fetch_feed_eq in Hf; injection Hf as <- _.
  apply fetch_feed_result_In in Hin as (feed & entry & Hp & Hin & Hn).
  pose proof (normalize_entry_Return _ _ _ Hn) as (Hd & _ & Hs & Hl).
  split; [assumption|].
  exists feed, entry.
  do 3 (split; [assumption|]).
  split; [intros H; rewrite H in Hl; assumption|].
  split; [intros l H; rewrite H in Hl; assumption|].
  apply get_pub_date_Return in Hd.
  destruct (Feedparser.published_parsed entry) as [[tp|]|];
    destruct (Feedparser.updated_parsed entry) as [[tu|]|];
    cbn [Feedparser.hasattr_and_truthy] in Hd; rewrite Hd;
    (split; [split|split]);
    try (intros t [= <-]; reflexivity);
    try (intros t _ [= <-]; reflexivity);
    try discriminate;
    try (intros t [H|H]; discriminate H);
    try (intros [[H|H] _]; discriminate H);
    try (intros [_ [H|H]]; discriminate H);
    auto.
Qed.

Lemma normalized_entry_invariant_witness : source Samples.entry_a3 = "TechCrunch".
Proof.
  apply (normalized_entry_invariant Samples.world
           "https://techcrunch.com/feed/" "TechCrunch" [] []
           [ Samples.entry_a1; Samples.entry_a2; Samples.entry_a3;
             mk_Entry "a4" "TechCrunch"
               (Some (utc_datetime (Samples.st 2024 2 1 9 0 0)))
               "https://example.org/a4";
             Samples.entry_a5 ]
           Samples.entry_a3).
  - reflexivity.
  - simpl; auto.
Defined.

(** C10. [fetch_feed] is all or nothing: when the normaliser raises [e]
    at one of the first five entries, after the entries before it were
    normalised to [done], the call prints the line for [e] and returns
    the empty list; [done] is lost.  An entry without a title is such
    an entry. *)
Theorem fetch_feed_all_or_nothing :
  forall (parse : string -> outcome Feedparser.feed)
         (url source_name : string) (feed : Feedparser.feed)
         (before after : list Feedparser.entry) (entry : Feedparser.entry)
         (done : list Entry) (e : exn) (out : stdout),
    parse url = Return feed ->
    firstn 5 (Feedparser.entries feed) = before ++ entry :: after ->
    traverse (normalize_entry source_name) before = Return done ->
    normalize_entry source_name entry = Raise e ->
    fetch_feed parse url source_name out
    = (Return [], out ++ [diagnostic source_name e])
    /\ (forall entry',
          Feedparser.title entry' = None ->
          exists e', normalize_entry source_name entry' = Raise e').
Proof.
  intros parse url source_name feed before after entry done e out
         Hp Hsplit Hdone He.
  split; [|intros entry'; apply normalize_entry_no_title].
  assert (Ho : fetch_outcome parse url source_name = Raise e).
  { unfold fetch_outcome; rewrite Hp; cbn [obind]; rewrite Hsplit.
    clear Hsplit; revert done Hdone.
    induction before as [|x before IH]; intros done Hdone.
    - cbn [app traverse]; rewrite He; reflexivity.
    - cbn [app traverse] in *.
      destruct (normalize_entry source_name x); [|discriminate].
      cbn [obind] in *.
      destruct (traverse (normalize_entry source_name) before) as [ys|];
        [|discriminate].
      rewrite (IH ys eq_refl); reflexivity. }
  rewrite fetch_feed_eq; unfold fetch_feed_result, fetch_feed_output.
  rewrite Ho; reflexivity.
Qed.

Lemma fetch_feed_all_or_nothing_witness :
  fetch_feed Samples.world "https://www.wired.com/feed/rss" "Wired" []
  = (Return [],
     [] ++ [diagnostic "Wired" (Feedparser.AttributeError "title")]).
Proof.
  apply (fetch_feed_all_or_nothing Samples.world
           "https://www.wired.com/feed/rss" "Wired"
           (Feedparser.mk_feed Samples.wired)
           [Samples.published "w1" (Samples.st 2024 3 2 9 0 0)]
           [Samples.published "w3" (Samples.st 2024 3 2 9 45 0)]
           (Samples.untitled (Samples.st 2024 3 2 9 30 0))
           [mk_Entry "w1" "Wired"
              (Some (utc_datetime (Samples.st 2024 3 2 9 0 0)))
              "https://example.org/w1"]
           (Feedparser.AttributeError "title") []);
    reflexivity.
Defined.

(** ** Aggregation *)

Lemma fetched_from_feeds_iff parse entry :
  fetched_from_feeds parse entry <-> In entry (fetched parse feeds).
Proof.
  unfold fetched_from_feeds; rewrite fetched_In; split.
  - intros (url & source_name & out & entries & out' & Hin & Hf & He).
    rewrite fetch_feed_eq in Hf; injection Hf as <- _; eauto.
  - intros (url & source_name & Hin & He).
    exists url, source_name, [], (fetch_feed_result parse url source_name).
    eexists; rewrite fetch_feed_eq; eauto.
Qed.



Lemma sort_key_dateless x : date x = None -> sort_key x = datetime_min_utc.
Proof. unfold sort_key; intros ->; reflexivity. Qed.

Lemma sort_key_dated x d : date x = Some d -> sort_key x = d.
Proof. unfold sort_key; intros ->; reflexivity. Qed.

(** C5. The returned list is the first ten elements of the sorted list,
    and it is the list the reporter is run on.  It never has more than
    ten elements; it has exactly ten as soon as ten entries qualify, so
    also when twelve or more do.  The ten are the most recent by
    timestamp: a dated entry that is shown is at least as late as every
    dated entry that was cut off, and an undated entry is shown only
    when every entry that was cut off is undated too or dated
    [datetime.min] (which no kept entry is when the cutoff is later
    than [datetime.min]). *)
Theorem report_at_most_ten :
  forall (parse : string -> outcome Feedparser.feed)
         (now cutoff_time : Datetime.datetime) (out : stdout),
    Datetime.datetime_sub now (Datetime.timedelta_hours 24) = Return cutoff_time ->
    exists sorted top_10 out1 out2,
      main_sorted parse now out = (Return sorted, out1)
      /\ main parse now out = (Return top_10, out2)
      /\ report top_10 out1 = (Return tt, out2)
      /\ top_10 = firstn 10 sorted
      /\ (List.length top_10 <= 10)%nat
      /\ List.length top_10 = Nat.min 10 (List.length sorted)
      /\ ((12 <= List.length sorted)%nat -> List.length top_10 = 10%nat)
      /\ (forall a b da db,
            In a top_10 -> In b (skipn 10 sorted) ->
            date a = Some da -> date b = Some db ->
            Datetime.datetime_ge da db = true)
      /\ (forall a b db,
            In a top_10 -> In b (skipn 10 sorted) ->
            date a = None -> date b = Some db ->
            Datetime.datetime_ge datetime_min_utc db = true)
      /\ (Datetime.datetime_lt datetime_min_utc cutoff_time = true ->
          forall a b,
            In a top_10 -> In b (skipn 10 sorted) ->
            date a = None -> date b = None).
Proof.
  intros parse now cutoff_time out Hc.
  rewrite (main_sorted_eq parse now cutoff_time out Hc),
    (main_eq parse now cutoff_time out Hc); cbn zeta.
  assert (Hkeys : forall a b,
             In a (firstn 10 (sorted_entries parse cutoff_time)) ->
             In b (skipn 10 (sorted_entries parse cutoff_time)) ->
             Datetime.datetime_ge (sort_key a) (sort_key b) = true).
  { intros a b; apply descending_firstn_skipn, sort_descending.
    - apply datetime_ge_total.
    - apply datetime_ge_trans. }
  do 4 eexists; split; [reflexivity|].
  split; [reflexivity|].
  split; [rewrite report_printed, app_assoc; reflexivity|].
  split; [reflexivity|].
  split; [apply firstn_le_length|].
  split; [apply length_firstn|].
  split; [intros H; rewrite length_firstn; lia|].
  split.
  { intros a b da db Ha Hb Hda Hdb.
    pose proof (Hkeys a b Ha Hb) as Hge.
    rewrite (sort_key_dated a da Hda), (sort_key_dated b db Hdb) in Hge.
    assumption. }
  split.
  { intros a b db Ha Hb Hda Hdb.
    pose proof (Hkeys a b Ha Hb) as Hge.
    rewrite (sort_key_dateless a Hda), (sort_key_dated b db Hdb) in Hge.
    assumption. }
  intros Hmin a b Ha Hb Hda.
  destruct (date b) as [db|] eqn:Hdb; [exfalso|reflexivity].
  pose proof (Hkeys a b Ha Hb) as Hge.
  rewrite (sort_key_dateless a Hda), (sort_key_dated b db Hdb) in Hge.
  assert (Hin : In b (sorted_entries parse cutoff_time))
    by (rewrite <- (firstn_skipn 10 (sorted_entries parse cutoff_time));
        apply in_or_app; right; assumption).
  apply sorted_entries_In, filter_In in Hin as [_ Hin].
  unfold is_recent in Hin; rewrite Hdb in Hin.
  rewrite datetime_lt_ge, (datetime_ge_trans _ _ _ Hge Hin) in Hmin.
  discriminate.
Qed.

Lemma report_at_most_ten_witness :
  exists sorted top_10 out1 out2,
    main_sorted Samples.busy_world Samples.now [] = (Return sorted, out1)
    /\ main Samples.busy_world Samples.now [] = (Return top_10, out2)
    /\ List.length sorted = 25%nat
    /\ List.length top_10 = 10%nat
    /\ Forall (fun a =>
                 exists da,
                   date a = Some da
                   /\ Datetime.datetime_ge da
                        (utc_datetime (Samples.st 2024 3 2 8 20 0)) = true)
         top_10.
Proof.
  destruct (report_at_most_ten Samples.busy_world Samples.now Samples.cutoff []
              eq_refl)
    as (sorted & top_10 & out1 & out2 & H1 & H2 & _ & H3 & _ & _ & H4 & _).
  assert (Hlen : List.length sorted = 25%nat).
  { vm_compute in H1; injection H1 as <- _; reflexivity. }
  exists sorted, top_10, out1, out2.
  split; [assumption|]; split; [assumption|]; split; [assumption|].
  split; [apply H4; rewrite Hlen; lia|].
  rewrite H3; vm_compute in H1; injection H1 as <- _.
  repeat constructor; eexists; split; reflexivity.
Defined.

(** ** The order of the report *)

Lemma datetime_lt_irrefl d : Datetime.datetime_lt d d = false.
Proof. rewrite datetime_lt_ge, datetime_ge_refl; reflexivity. Qed.

(** The claim C4 as it is worded fails when two entries carry the same
    timestamp: each is at least as recent as the other, and only one of
    them can come first.  In the sample run the entries [a1] and [a5]
    are both dated 10:00; [a1] is second and [a5] third. *)
Lemma sort_order_iff_fails_on_ties :
  ~ (forall (parse : string -> outcome Feedparser.feed)
            (now : Datetime.datetime) (out out' : stdout) (sorted : list Entry),
        main_sorted parse now out = (Return sorted, out') ->
        forall i j a b da db,
          nth_error sorted i = Some a -> nth_error sorted j = Some b ->
          date a = Some da -> date b = Some db ->
          ((i < j)%nat <-> Datetime.datetime_ge da db = true)).
Proof.
  intros H.
  assert (Hrun : main_sorted Samples.world Samples.now []
                 = (Return [ Samples.entry_a2; Samples.entry_a1; Samples.entry_a5;
                             Samples.entry_a3; Samples.entry_r1; Samples.entry_r2 ],
                    [ "Error fetching The Verge: <urlopen error timed out>";
                      "Error fetching Wired: object has no attribute 'title'";
                      "Error fetching BBC Tech: <urlopen error timed out>" ]))
    by (vm_compute; reflexivity).
  destruct (H _ _ _ _ _ Hrun 2%nat 1%nat Samples.entry_a5 Samples.entry_a1 _ _
              eq_refl eq_refl eq_refl eq_refl) as [_ Hback].
  specialize (Hback eq_refl); lia.
Qed.

(** C4, amended. The entries kept by the filter are sorted by a stable
    sort on the key, descending, where the key is the date, or
    [datetime.min] (UTC) for an entry without a date: the sorted list
    is a permutation of the kept entries, keys never increase along it,
    and the entries with one and the same key are in the order they had
    before.  So undated entries keep their relative order and come
    after every entry dated later than [datetime.min], which is every
    dated entry of the list, hence the end of the list, when
    [now - 24 hours] is later than [datetime.min].  For two entries A
    and B of the sorted list with dates: if A is later than B then A
    comes before B, and if A comes before B then A is at least as
    late as B. *)
Theorem sort_is_stable_descending :
  forall (parse : string -> outcome Feedparser.feed)
         (now cutoff_time : Datetime.datetime) (out : stdout),
    Datetime.datetime_sub now (Datetime.timedelta_hours 24) = Return cutoff_time ->
    exists all_entries sorted out1,
      for_in feeds (main_feed parse cutoff_time) [] out = (Return all_entries, out1)
      /\ main_sorted parse now out = (Return sorted, out1)
      /\ Permutation all_entries sorted
      /\ (forall i j a b,
            (i < j)%nat ->
            nth_error sorted i = Some a -> nth_error sorted j = Some b ->
            Datetime.datetime_ge (sort_key a) (sort_key b) = true)
      /\ (forall k,
            with_key sort_key Datetime.datetime_ge k sorted
            = with_key sort_key Datetime.datetime_ge k all_entries)
      /\ (forall x, date x = None -> sort_key x = datetime_min_utc)
      /\ filter dateless sorted = filter dateless all_entries
      /\ (forall i j a b db,
            nth_error sorted i = Some a -> nth_error sorted j = Some b ->
            date a = None -> date b = Some db ->
            Datetime.datetime_lt datetime_min_utc db = true ->
            (j < i)%nat)
      /\ (Datetime.datetime_lt datetime_min_utc cutoff_time = true ->
          forall i j a b,
            (i < j)%nat ->
            nth_error sorted i = Some a -> nth_error sorted j = Some b ->
            date a = None -> date b = None)
      /\ (forall i j a b da db,
            nth_error sorted i = Some a -> nth_error sorted j = Some b ->
            date a = Some da -> date b = Some db ->
            (Datetime.datetime_lt db da = true -> (i < j)%nat)
            /\ ((i < j)%nat -> Datetime.datetime_ge da db = true)).
Proof.
  intros parse now cutoff_time out Hc.
  rewrite main_loop_eq, (main_sorted_eq parse now cutoff_time out Hc); cbn [app].
  fold (aggregate parse cutoff_time).
  exists (aggregate parse cutoff_time), (sorted_entries parse cutoff_time).
  eexists; split; [reflexivity|]; split; [reflexivity|].
  assert (Hdesc : forall i j a b,
             (i < j)%nat ->
             nth_error (sorted_entries parse cutoff_time) i = Some a ->
             nth_error (sorted_entries parse cutoff_time) j = Some b ->
             Datetime.datetime_ge (sort_key a) (sort_key b) = true).
  { intros i j a b; apply descending_nth_error, sort_descending.
    - apply datetime_ge_total.
    - apply datetime_ge_trans. }
  assert (Hlast : forall i j a b db,
             nth_error (sorted_entries parse cutoff_time) i = Some a ->
             nth_error (sorted_entries parse cutoff_time) j = Some b ->
             date a = None -> date b = Some db ->
             Datetime.datetime_lt datetime_min_utc db = true ->
             (j < i)%nat).
  { intros i j a b db Hi Hj Ha Hb Hlt.
    destruct (Nat.lt_trichotomy i j) as [Hij|[->|Hij]]; [|congruence|assumption].
    pose proof (Hdesc i j a b Hij Hi Hj) as Hge.
    rewrite (sort_key_dateless a Ha), (sort_key_dated b db Hb) in Hge.
    rewrite datetime_lt_ge, Hge in Hlt; discriminate. }
  split; [apply sort_Permutation|].
  split; [exact Hdesc|].
  split; [intros k; apply sort_with_key; apply datetime_ge_trans|].
  split; [exact sort_key_dateless|].
  split.
  { apply sort_filter; intros x y Hx Hy; unfold dateless in Hx, Hy.
    destruct (date x) eqn:Hdx; [discriminate|].
    destruct (date y) eqn:Hdy; [discriminate|].
    rewrite (sort_key_dateless x Hdx), (sort_key_dateless y Hdy).
    apply datetime_ge_refl. }
  split; [exact Hlast|].
  split.
  { intros Hmin i j a b Hij Hi Hj Ha.
    destruct (date b) as [db|] eqn:Hb; [exfalso|reflexivity].
    assert (Hrecent : Datetime.datetime_ge db cutoff_time = true).
    { apply nth_error_In, sorted_entries_In, filter_In in Hj as [_ Hj].
      unfold is_recent in Hj; rewrite Hb in Hj; assumption. }
    assert (Hlt : Datetime.datetime_lt datetime_min_utc db = true).
    { rewrite datetime_lt_ge in *.
      destruct (Datetime.datetime_ge datetime_min_utc db) eqn:Hge;
        [|reflexivity].
      rewrite (datetime_ge_trans _ _ _ Hge Hrecent) in Hmin; discriminate. }
    pose proof (Hlast i j a b db Hi Hj Ha Hb Hlt); lia. }
  intros i j a b da db Hi Hj Ha Hb; split.
  - intros Hlt.
    destruct (Nat.lt_trichotomy i j) as [Hij|[->|Hij]]; [assumption| |].
    + assert (da = db) as -> by congruence.
      rewrite datetime_lt_irrefl in Hlt; discriminate.
    + pose proof (Hdesc j i b a Hij Hj Hi) as Hge.
      rewrite (sort_key_dated a da Ha), (sort_key_dated b db Hb) in Hge.
      rewrite datetime_lt_ge, Hge in Hlt; discriminate.
  - intros Hij; pose proof (Hdesc i j a b Hij Hi Hj) as Hge.
    rewrite (sort_key_dated a da Ha), (sort_key_dated b db Hb) in Hge.
    assumption.
Qed.

Lemma sort_is_stable_descending_witness :
  exists all_entries sorted out1,
    for_in feeds (main_feed Samples.world Samples.cutoff) [] []
    = (Return all_entries, out1)
    /\ main_sorted Samples.world Samples.now [] = (Return sorted, out1)
    /\ Permutation all_entries sorted
    /\ filter dateless sorted = filter dateless all_entries.
Proof.
  destruct (sort_is_stable_descending Samples.world Samples.now Samples.cutoff []
              eq_refl)
    as (all_entries & sorted & out1 & H1 & H2 & H3 & _ & _ & _ & H4 & _).
  exists all_entries, sorted, out1; repeat split; assumption.
Defined.

(** ** The text of the report *)






(** * Further properties of the script *)

Section Calendar_facts.
Import Datetime.

Ltac eval_nth :=
  repeat match goal with
         | |- context [nth (Z.to_nat ?k) ?l ?d] =>
             let v := eval vm_compute in (nth (Z.to_nat k) l d) in
             change (nth (Z.to_nat k) l d) with v
         | H : context [nth (Z.to_nat ?k) ?l ?d] |- _ =>
             let v := eval vm_compute in (nth (Z.to_nat k) l d) in
             change (nth (Z.to_nat k) l d) with v in H
         end.

Ltac eval_if :=
  repeat match goal with
         | |- context [if ?c then ?a else ?b] =>
             let v := eval vm_compute in c in
             lazymatch v with
             | true => change (if c then a else b) with a
             | false => change (if c then a else b) with b
             end
         | H : context [if ?c then ?a else ?b] |- _ =>
             let v := eval vm_compute in c in
             lazymatch v with
             | true => change (if c then a else b) with a in H
             | false => change (if c then a else b) with b in H
             end
         end.

Ltac month_cases m :=
  let H := fresh "Hcases" in
  assert (H : m = 1 \/ m = 2 \/ m = 3 \/ m = 4 \/ m = 5 \/ m = 6 \/ m = 7
              \/ m = 8 \/ m = 9 \/ m = 10 \/ m = 11 \/ m = 12) by lia;
  repeat (destruct H as [->|H]); try subst m.

Lemma day_of_year_bounds y m d :
  1 <= m <= 12 -> 1 <= d <= _days_in_month y m ->
  1 <= _days_before_month y m + d <= 365 + (if _is_leap y then 1 else 0).
Proof.
  intros Hm Hd; unfold _days_before_month, _days_in_month in *.
  month_cases m; destruct (_is_leap y); eval_nth; eval_if; lia.
Qed.

Lemma _days_before_month_next y m m' :
  1 <= m -> m < m' -> m' <= 12 ->
  _days_before_month y m + _days_in_month y m <= _days_before_month y m'.
Proof.
  intros Hm Hlt Hm'; unfold _days_before_month, _days_in_month.
  month_cases m; month_cases m'; try lia;
    destruct (_is_leap y); eval_nth; eval_if; lia.
Qed.

Lemma _days_before_year_succ y :
  1 <= y ->
  _days_before_year (y + 1)
  = _days_before_year y + 365 + (if _is_leap y then 1 else 0).
Proof.
  intros Hy; unfold _days_before_year, _is_leap.
  replace (y + 1 - 1) with y by lia.
  destruct (Z.eqb_spec (y mod 4) 0), (Z.eqb_spec (y mod 100) 0),
    (Z.eqb_spec (y mod 400) 0); cbn [negb andb orb];
    Z.div_mod_to_equations; lia.
Qed.

Lemma _days_before_year_mono y y' :
  1 <= y -> y <= y' -> _days_before_year y <= _days_before_year y'.
Proof.
  intros Hy Hle; unfold _days_before_year; Z.div_mod_to_equations; lia.
Qed.

(** An earlier date has a smaller ordinal. *)
Lemma _ymd2ord_lt y m d y' m' d' :
  1 <= y -> 1 <= m <= 12 -> 1 <= d <= _days_in_month y m ->
  1 <= y' -> 1 <= m' <= 12 -> 1 <= d' <= _days_in_month y' m' ->
  y < y' \/ (y = y' /\ m < m') \/ (y = y' /\ m = m' /\ d < d') ->
  _ymd2ord y m d < _ymd2ord y' m' d'.
Proof.
  intros Hy Hm Hd Hy' Hm' Hd' Hlex; unfold _ymd2ord.
  pose proof (day_of_year_bounds y m d Hm Hd) as Hdoy.
  pose proof (day_of_year_bounds y' m' d' Hm' Hd') as Hdoy'.
  destruct Hlex as [Hlt|[[<- Hlt]|(<- & <- & Hlt)]].
  - pose proof (_days_before_year_succ y Hy) as Hs.
    pose proof (_days_before_year_mono (y + 1) y' ltac:(lia) ltac:(lia)).
    lia.
  - pose proof (_days_before_month_next y m m' ltac:(lia) Hlt ltac:(lia)).
    lia.
  - lia.
Qed.




(** Only 0001-01-01 has ordinal 1. *)
Lemma toordinal_first_day d :
  valid_datetime d = true ->
  (toordinal d < 2 <-> year d = 1 /\ month d = 1 /\ day d = 1).
Proof.
  intros Hv.
  apply valid_datetime_bounds in Hv as (Hy & Hm & Hd & _).
  pose proof (_ymd2ord_bounds _ _ _ Hy Hm Hd) as [Hlo _].
  unfold toordinal; split.
  - intros Hlt.
    destruct (Z.eq_dec (year d) 1) as [Ey|Ny];
      [destruct (Z.eq_dec (month d) 1) as [Em|Nm];
       [destruct (Z.eq_dec (day d) 1) as [Ed|Nd]; [auto|]|]|];
      exfalso;
      pose proof (_ymd2ord_lt 1 1 1 (year d) (month d) (day d)
                    ltac:(lia) ltac:(lia)
                    ltac:(change (_days_in_month 1 1) with 31; lia)
                    ltac:(lia) Hm Hd ltac:(lia)) as H;
      change (_ymd2ord 1 1 1) with 1 in H; lia.
  - intros (-> & -> & ->); change (_ymd2ord 1 1 1) with 1; lia.
Qed.

(** On 0001-01-01 the subtraction of a day overflows. *)
Lemma datetime_sub_overflow now :
  valid_datetime now = true -> toordinal now < 2 ->
  datetime_sub now (timedelta_hours 24)
  = Raise (OverflowError "date value out of range").
Proof.
  intros Hv Hord.
  pose proof Hv as Hb.
  apply valid_datetime_bounds in Hb as (Hy & Hm & Hd & HH & HM & HS & Hus).
  pose proof (_ymd2ord_bounds _ _ _ Hy Hm Hd) as [Hlo _].
  fold (toordinal now) in Hlo.
  unfold datetime_sub.
  change (timedelta_hours 24) with (mk_timedelta 1 0 0).
  unfold total_microseconds; cbn [days seconds microseconds].
  set (us := (toordinal now * 86400
              + (hour now * 3600 + minute now * 60 + second now)) * 1000000
             + microsecond now - ((1 * 86400 + 0) * 1000000 + 0)).
  assert (Hdays : us / 86400000000 = 0)
    by (subst us; Z.div_mod_to_equations; lia).
  rewrite Hdays; reflexivity.
Qed.
End Calendar_facts.


(** ** The normaliser, case by case *)

Lemma datetime_of_struct_time_refused t tz :
  in_range t = false ->
  exists e,
    Datetime.datetime_of_struct_time t tz = Raise e
    /\ exn_class e = refusal_class t.
Proof.
  unfold in_range, utc_datetime, Datetime.valid_datetime, refusal_class,
    fits_c_int, Datetime.datetime_of_struct_time, Datetime.new_datetime.
  cbn [Datetime.year Datetime.month Datetime.day Datetime.hour Datetime.minute
       Datetime.second Datetime.microsecond forallb].
  intros Hv.
  repeat match goal with
         | |- context [Datetime.as_int ?x] =>
             destruct (Z.leb_spec Datetime.INT_MIN x);
             [destruct (Z.leb_spec x Datetime.INT_MAX)|];
             [ rewrite (as_int_fits x) by lia; cbn [obind andb]
             | destruct (as_int_overflow x) as [msg ->]; [lia|];
               cbn [obind andb]; eexists; split; reflexivity
             | destruct (as_int_overflow x) as [msg ->]; [lia|];
               cbn [obind andb]; eexists; split; reflexivity ]
         end.
  repeat match goal with
         | |- context [if negb ?c then _ else _] =>
             destruct c eqn:?; cbn [negb];
             [|eexists; split; reflexivity]
         end.
  repeat match goal with
         | H : (_ && _)%bool = true |- _ =>
             apply andb_true_iff in H; destruct H as [? ?]
         end.
  repeat match goal with
         | H : ?c = true |- _ => rewrite H in Hv
         end.
  discriminate Hv.
Qed.

Lemma get_pub_date_cases entry :
  match selected_timestamp entry with
  | Some t =>
      if in_range t then get_pub_date entry = Return (Some (utc_datetime t))
      else exists e,
          get_pub_date entry = Raise e /\ exn_class e = refusal_class t
  | None => get_pub_date entry = Return None
  end.
Proof.
  unfold selected_timestamp, get_pub_date.
  destruct (Feedparser.hasattr_and_truthy (Feedparser.published_parsed entry))
    as [t|];
    [|destruct (Feedparser.hasattr_and_truthy (Feedparser.updated_parsed entry))
        as [t|]; [|reflexivity]].
  all: destruct (in_range t) eqn:Hv;
    [ unfold in_range, utc_datetime in Hv;
      unfold Datetime.datetime_of_struct_time;
      rewrite (new_datetime_valid _ _ _ _ _ _ _ Hv); reflexivity
    | destruct (datetime_of_struct_time_refused t (Some Datetime.utc) Hv)
        as (e & -> & Hclass);
      exists e; split; [reflexivity|assumption] ].
Qed.

(** X1. What the normaliser does with a raw entry, in the order the
    code decides it.  A selected timestamp that the [datetime]
    constructor refuses raises an exception, whether or not there is a
    title and, for a published timestamp, whatever the updated one is:
    [ValueError] when its six integers fit a C [int] and one is outside
    its calendar range (a leap second, say), [OverflowError] when one
    does not fit.  Otherwise a missing title raises [AttributeError];
    otherwise the record has the title as it is (also when empty), the
    given source, the selected timestamp as a UTC date, and the link or
    the empty string. *)
Theorem normalize_entry_cases :
  forall (source_name : string) (entry : Feedparser.entry),
    (forall t,
        selected_timestamp entry = Some t -> in_range t = false ->
        exists e,
          normalize_entry source_name entry = Raise e
          /\ (fits_c_int t = true -> exn_class e = "ValueError")
          /\ (fits_c_int t = false -> exn_class e = "OverflowError"))
    /\ ((forall t, selected_timestamp entry = Some t -> in_range t = true) ->
        Feedparser.title entry = None ->
        normalize_entry source_name entry
        = Raise (Feedparser.AttributeError "title"))
    /\ (forall h,
          (forall t, selected_timestamp entry = Some t -> in_range t = true) ->
          Feedparser.title entry = Some h ->
          normalize_entry source_name entry
          = Return (mk_Entry h source_name
                      (option_map utc_datetime (selected_timestamp entry))
                      (link_or_empty entry))).
Proof.
  intros source_name entry.
  pose proof (get_pub_date_cases entry) as Hd.
  unfold normalize_entry, link_or_empty.
  destruct (selected_timestamp entry) as [t|].
  - destruct (in_range t) eqn:Hr.
    + rewrite Hd; cbn [obind option_map].
      split; [intros t' [= <-]; congruence|].
      split.
      * intros _ ->; reflexivity.
      * intros h _ ->; cbn [obind Feedparser.getattr].
        destruct (Feedparser.link entry); reflexivity.
    + destruct Hd as (e & Hd & Hclass); rewrite Hd; cbn [obind].
      split.
      * intros t' [= <-] _; exists e; split; [reflexivity|].
        unfold refusal_class in Hclass.
        split; intros Hfit; rewrite Hfit in Hclass; assumption.
      * split; [intros Hok|intros h Hok];
          specialize (Hok t eq_refl); congruence.
  - rewrite Hd; cbn [obind option_map].
    split; [discriminate|].
    split.
    + intros _ ->; reflexivity.
    + intros h _ ->; cbn [obind Feedparser.getattr].
      destruct (Feedparser.link entry); reflexivity.
Qed.

Lemma normalize_entry_cases_witness :
  exists e,
    normalize_entry "Wired" MoreSamples.leap_second = Raise e
    /\ (fits_c_int (Samples.st 2016 12 31 23 59 60) = true ->
        exn_class e = "ValueError")
    /\ (fits_c_int (Samples.st 2016 12 31 23 59 60) = false ->
        exn_class e = "OverflowError").
Proof.
  apply (proj1 (normalize_entry_cases "Wired" MoreSamples.leap_second)
           (Samples.st 2016 12 31 23 59 60)); reflexivity.
Defined.

(** ** More on the fetch boundary *)

(** X2. When the feed is parsed and each of its first five entries is
    normalised, [fetch_feed] returns exactly their records, one per
    entry, as many as the feed has entries up to five, and prints
    nothing. *)
Theorem fetch_feed_success :
  forall (parse : string -> outcome Feedparser.feed)
         (url source_name : string) (feed : Feedparser.feed)
         (records : list Entry) (out : stdout),
    parse url = Return feed ->
    Forall2 (fun entry e => normalize_entry source_name entry = Return e)
      (firstn 5 (Feedparser.entries feed)) records ->
    fetch_feed parse url source_name out = (Return records, out)
    /\ List.length records
       = Nat.min 5 (List.length (Feedparser.entries feed)).
Proof.
  intros parse url source_name feed records out Hp Hall.
  pose proof Hall as Ht; apply traverse_Forall2 in Ht.
  split.
  - rewrite fetch_feed_eq.
    unfold fetch_feed_result, fetch_feed_output, fetch_outcome.
    rewrite Hp; cbn [obind]; rewrite Ht, app_nil_r; reflexivity.
  - rewrite (traverse_length _ _ _ Ht); apply length_firstn.
Qed.

Lemma fetch_feed_success_witness :
  fetch_feed Samples.world "https://arstechnica.com/feed/" "Ars Technica" []
  = (Return [Samples.entry_r1; Samples.entry_r2], []).
Proof.
  apply (fetch_feed_success Samples.world "https://arstechnica.com/feed/"
           "Ars Technica" (Feedparser.mk_feed Samples.ars)
           [Samples.entry_r1; Samples.entry_r2] []).
  - reflexivity.
  - repeat constructor.
Defined.

(** X3. Only the first five entries of a feed count: two parse results
    that agree on them give the same return value and the same output,
    so an entry in sixth place or later can neither add a record nor
    make the fetch fail. *)
Theorem fetch_feed_ignores_later_entries :
  forall (parse1 parse2 : string -> outcome Feedparser.feed)
         (url source_name : string) (feed1 feed2 : Feedparser.feed)
         (out : stdout),
    parse1 url = Return feed1 ->
    parse2 url = Return feed2 ->
    firstn 5 (Feedparser.entries feed1) = firstn 5 (Feedparser.entries feed2) ->
    fetch_feed parse1 url source_name out = fetch_feed parse2 url source_name out.
Proof.
  intros parse1 parse2 url source_name feed1 feed2 out H1 H2 Heq.
  rewrite !fetch_feed_eq.
  unfold fetch_feed_result, fetch_feed_output, fetch_outcome.
  rewrite H1, H2; cbn [obind]; rewrite Heq; reflexivity.
Qed.

Lemma fetch_feed_ignores_later_entries_witness :
  fetch_feed MoreSamples.long_world "https://www.wired.com/feed/rss" "Wired" []
  = fetch_feed Samples.busy_world "https://www.wired.com/feed/rss" "Wired" [].
Proof.
  apply (fetch_feed_ignores_later_entries MoreSamples.long_world
           Samples.busy_world "https://www.wired.com/feed/rss" "Wired"
           (Feedparser.mk_feed MoreSamples.long_feed)
           (Feedparser.mk_feed Samples.busy) []);
    reflexivity.
Defined.

(** ** More on the whole run *)

(** X4. [main] depends on the clock in one way only: on 0001-01-01,
    where [now - 24 hours] does not exist, it stops with
    [OverflowError] before it reads a feed or prints a line; on every
    other day it returns, whatever the feeds do. *)
Theorem main_returns_unless_first_day :
  forall (parse : string -> outcome Feedparser.feed)
         (now : Datetime.datetime) (out : stdout),
    Datetime.valid_datetime now = true ->
    (Datetime.year now = 1 /\ Datetime.month now = 1 /\ Datetime.day now = 1 ->
     main parse now out
     = (Raise (Datetime.OverflowError "date value out of range"), out))
    /\ (~ (Datetime.year now = 1 /\ Datetime.month now = 1
           /\ Datetime.day now = 1) ->
        exists top_10 out', main parse now out = (Return top_10, out')).
Proof.
  intros parse now out Hv; split.
  - intros Hfirst; apply main_overflow, datetime_sub_overflow; [assumption|].
    apply toordinal_first_day; assumption.
  - intros Hlater; apply main_returns; [assumption|].
    destruct (Z_lt_ge_dec (Datetime.toordinal now) 2) as [Hlt|Hge]; [|lia].
    apply toordinal_first_day in Hlt; [contradiction|assumption].
Qed.

Lemma main_returns_unless_first_day_witness :
  main Samples.world MoreSamples.first_day []
  = (Raise (Datetime.OverflowError "date value out of range"), []).
Proof.
  apply (main_returns_unless_first_day Samples.world MoreSamples.first_day []);
    [reflexivity | repeat split].
Defined.




(** X6. The published timestamp decides alone when it is there: an
    entry published before the cutoff is left out of the report even
    when its updated timestamp is recent. *)
Theorem stale_published_hides_update :
  forall (parse : string -> outcome Feedparser.feed)
         (now cutoff_time : Datetime.datetime) (out : stdout)
         (source_name : string) (entry : Feedparser.entry) (e : Entry)
         (t : Datetime.struct_time),
    Datetime.datetime_sub now (Datetime.timedelta_hours 24) = Return cutoff_time ->
    normalize_entry source_name entry = Return e ->
    Feedparser.published_parsed entry = Some (Some t) ->
    Datetime.datetime_lt (utc_datetime t) cutoff_time = true ->
    is_recent cutoff_time e = false
    /\ exists top_10 out',
        main parse now out = (Return top_10, out') /\ ~ In e top_10.
Proof.
  intros parse now cutoff_time out source_name entry e t Hc Hn Hp Hlt.
  apply normalize_entry_Return in Hn as (Hd & _).
  apply get_pub_date_Return in Hd; rewrite Hp in Hd; cbn in Hd.
  assert (Hold : is_recent cutoff_time e = false).
  { unfold is_recent; rewrite Hd.
    rewrite datetime_lt_ge in Hlt.
    destruct (Datetime.datetime_ge (utc_datetime t) cutoff_time);
      [discriminate|reflexivity]. }
  split; [assumption|].
  rewrite (main_eq parse now cutoff_time out Hc).
  do 2 eexists; split; [reflexivity|].
  intros Hin.
  apply In_firstn, sorted_entries_In, filter_In in Hin as [_ Hin]; congruence.
Qed.

Lemma stale_published_hides_update_witness :
  is_recent Samples.cutoff MoreSamples.entry_revised = false.
Proof.
  apply (stale_published_hides_update MoreSamples.mixed_world Samples.now
           Samples.cutoff [] "Wired" MoreSamples.revised
           MoreSamples.entry_revised (Samples.st 2024 2 1 9 0 0));
    reflexivity.
Defined.

Lemma filter_none {A} (p : A -> bool) (l : list A) :
  (forall x, In x l -> p x = false) -> filter p l = [].
Proof.
  induction l as [|x l IH]; intros H; [reflexivity|].
  cbn [filter]; rewrite (H x (or_introl eq_refl)).
  apply IH; intros y Hy; apply H; right; assumption.
Qed.

Lemma render_items_length items i :
  List.length (render_items i items) = (4 * List.length items)%nat.
Proof.
  revert i; induction items as [|x items IH]; intros i; [reflexivity|].
  cbn [render_items item_lines app List.length]; rewrite IH; lia.
Qed.

Lemma diagnostics_length parse fs :
  (List.length (diagnostics parse fs) <= List.length fs)%nat.
Proof.
  unfold diagnostics; induction fs as [|f fs IH]; [simpl; lia|].
  cbn [flat_map]; rewrite length_app; unfold fetch_feed_output at 1.
  destruct (fetch_outcome parse (fst f) (snd f)); simpl; lia.
Qed.


Lemma failure_line_eq parse f :
  failure_line parse f = fetch_feed_output parse (fst f) (snd f).
Proof.
  unfold failure_line, fetch_feed_output; rewrite fetch_feed_try_eq.
  destruct (fetch_outcome parse (fst f) (snd f)); reflexivity.
Qed.

Lemma fetched_concat parse fs per_feed :
  Forall2 (fun f entries =>
             exists out',
               fetch_feed parse (fst f) (snd f) [] = (Return entries, out'))
    fs per_feed ->
  List.concat per_feed = fetched parse fs.
Proof.
  induction 1 as [|f entries fs per_feed [out' Hf] _ IH]; [reflexivity|].
  rewrite fetch_feed_eq in Hf; injection Hf as <- _.
  unfold fetched in *; cbn [List.concat flat_map]; rewrite IH; reflexivity.
Qed.

(** X7. When no entry passes the filter (every feed failed, or all
    entries are too old), [main] still returns: the result is the empty
    list, and after the diagnostics the report is a header that counts
    0 entries and the rule, with nothing after them. *)
Theorem nothing_recent_empty_report :
  forall (parse : string -> outcome Feedparser.feed)
         (now cutoff_time : Datetime.datetime) (out : stdout),
    Datetime.datetime_sub now (Datetime.timedelta_hours 24) = Return cutoff_time ->
    (forall entry,
        fetched_from_feeds parse entry -> is_recent cutoff_time entry = false) ->
    exists out1,
      for_in feeds (main_feed parse cutoff_time) [] out = (Return [], out1)
      /\ main parse now out
         = (Return [],
            out1 ++ [ "Top 0 Technology News Headlines" +++ LF;
                      str_mul "=" 80 ]).
Proof.
  intros parse now cutoff_time out Hc Hnone.
  assert (Hagg : aggregate parse cutoff_time = []).
  { apply filter_none; intros x Hx; apply Hnone, fetched_from_feeds_iff, Hx. }
  rewrite main_loop_eq, (main_eq parse now cutoff_time out Hc).
  fold (aggregate parse cutoff_time); unfold sorted_entries; rewrite Hagg.
  eexists; split; [reflexivity|].
  cbn [app sort_by_key_reverse firstn]; rewrite app_assoc; reflexivity.
Qed.

Lemma nothing_recent_empty_report_witness :
  main MoreSamples.down_world Samples.now []
  = (Return [],
     [ "Error fetching TechCrunch: <urlopen error timed out>";
       "Error fetching The Verge: <urlopen error timed out>";
       "Error fetching Wired: <urlopen error timed out>";
       "Error fetching Ars Technica: <urlopen error timed out>";
       "Error fetching BBC Tech: <urlopen error timed out>" ]
     ++ [ "Top 0 Technology News Headlines" +++ LF; str_mul "=" 80 ]).
Proof.
  destruct (nothing_recent_empty_report MoreSamples.down_world Samples.now
              Samples.cutoff [] eq_refl) as (out1 & H1 & H2).
  - intros entry (url & source_name & o & entries & o' & _ & Hf & Hin).
    vm_compute in Hf; injection Hf as <- _; contradiction.
  - vm_compute in H1; injection H1 as <-; exact H2.
Defined.

(** X8. When at most ten entries pass the filter, nothing is cut: the
    report is the whole sorted list, a rearrangement of the kept
    entries in which each occurs as often as it was fetched (an entry
    that two feeds carry is listed twice). *)
Theorem short_list_reported_in_full :
  forall (parse : string -> outcome Feedparser.feed)
         (now cutoff_time : Datetime.datetime) (out : stdout),
    Datetime.datetime_sub now (Datetime.timedelta_hours 24) = Return cutoff_time ->
    exists all_entries sorted top_10 out1 out2,
      for_in feeds (main_feed parse cutoff_time) [] out = (Return all_entries, out1)
      /\ main_sorted parse now out = (Return sorted, out1)
      /\ main parse now out = (Return top_10, out2)
      /\ ((List.length all_entries <= 10)%nat ->
          top_10 = sorted /\ Permutation all_entries top_10).
Proof.
  intros parse now cutoff_time out Hc.
  rewrite main_loop_eq, (main_sorted_eq parse now cutoff_time out Hc),
    (main_eq parse now cutoff_time out Hc); cbn [app].
  fold (aggregate parse cutoff_time).
  do 5 eexists; split; [reflexivity|]; split; [reflexivity|];
    split; [reflexivity|].
  intros Hlen.
  assert (Hall : firstn 10 (sorted_entries parse cutoff_time)
                 = sorted_entries parse cutoff_time).
  { apply firstn_all2; unfold sorted_entries; rewrite sort_length; assumption. }
  rewrite Hall; split; [reflexivity|apply sort_Permutation].
Qed.

Lemma short_list_reported_in_full_witness :
  exists all_entries sorted top_10 out1 out2,
    for_in feeds (main_feed Samples.world Samples.cutoff) [] []
    = (Return all_entries, out1)
    /\ main_sorted Samples.world Samples.now [] = (Return sorted, out1)
    /\ main Samples.world Samples.now [] = (Return top_10, out2)
    /\ top_10 = sorted.
Proof.
  destruct (short_list_reported_in_full Samples.world Samples.now
              Samples.cutoff [] eq_refl)
    as (all_entries & sorted & top_10 & out1 & out2 & H1 & H2 & H3 & H4).
  exists all_entries, sorted, top_10, out1, out2.
  repeat split; try assumption.
  apply H4; vm_compute in H1; injection H1 as <- _; simpl; lia.
Defined.

Lemma printed_items_length items i :
  List.length (printed_items i items) = (4 * List.length items)%nat.
Proof.
  revert i; induction items as [|x items IH]; intros i; [reflexivity|].
  cbn [printed_items app List.length]; rewrite IH; lia.
Qed.

(** X9. The calls of [print] in a run, in order ([stdout] holds one
    text per call): first one call for each feed that failed, in the
    order of the feed list, so at most five; then the calls of the
    reporter, which are two (the header, whose text itself ends in a
    newline, and the rule) and four more per entry shown.  A run
    therefore calls [print] at most 47 times, and what was on the
    output before stays in front. *)
Theorem main_output_layout :
  forall (parse : string -> outcome Feedparser.feed)
         (now cutoff_time : Datetime.datetime) (out : stdout),
    Datetime.datetime_sub now (Datetime.timedelta_hours 24) = Return cutoff_time ->
    exists top_10 report_calls,
      main parse now out
      = (Return top_10,
         out ++ flat_map (failure_line parse) feeds ++ report_calls)
      /\ report top_10 [] = (Return tt, report_calls)
      /\ (List.length (flat_map (failure_line parse) feeds) <= 5)%nat
      /\ List.length report_calls = (2 + 4 * List.length top_10)%nat
      /\ nth_error report_calls 0
         = Some ("Top " +++ str_nat (List.length top_10)
                 +++ " Technology News Headlines" +++ LF)
      /\ (List.length (flat_map (failure_line parse) feeds ++ report_calls)
          <= 47)%nat.
Proof.
  intros parse now cutoff_time out Hc.
  rewrite (main_eq parse now cutoff_time out Hc); cbn zeta.
  set (top_10 := firstn 10 (sorted_entries parse cutoff_time)).
  assert (Hd : flat_map (failure_line parse) feeds = diagnostics parse feeds)
    by (apply flat_map_ext; intros f; apply failure_line_eq).
  assert (Hlen : (List.length (printed top_10) = 2 + 4 * List.length top_10)%nat)
    by (unfold printed; cbn [List.length]; rewrite printed_items_length; lia).
  assert (Hfive : (List.length (diagnostics parse feeds) <= 5)%nat)
    by apply (diagnostics_length parse feeds).
  assert (Hten : (List.length top_10 <= 10)%nat) by apply firstn_le_length.
  exists top_10, (printed top_10); rewrite Hd.
  split; [reflexivity|].
  split; [apply (report_printed top_10 [])|].
  split; [assumption|]; split; [assumption|]; split; [reflexivity|].
  rewrite length_app; lia.
Qed.

Lemma main_output_layout_witness :
  exists top_10 report_calls,
    main Samples.world Samples.now []
    = (Return top_10,
       [] ++ flat_map (failure_line Samples.world) feeds ++ report_calls)
    /\ List.length report_calls = (2 + 4 * List.length top_10)%nat.
Proof.
  destruct (main_output_layout Samples.world Samples.now Samples.cutoff []
              eq_refl)
    as (top_10 & report_calls & H1 & _ & _ & H2 & _).
  exists top_10, report_calls; split; assumption.
Defined.

Lemma get_pub_date_microsecond entry d :
  get_pub_date entry = Return (Some d) -> Datetime.microsecond d = 0.
Proof.
  intros H; apply get_pub_date_Return in H.
  destruct (Feedparser.hasattr_and_truthy (Feedparser.published_parsed entry));
    [|destruct (Feedparser.hasattr_and_truthy (Feedparser.updated_parsed entry))];
    try discriminate; injection H as ->; reflexivity.
Qed.

(** X10. Every entry that [main] returns was returned by [fetch_feed]
    for one of the five feeds and carries the display name of one of
    them; when it has a date, that date is a proper [datetime] with
    [tzinfo = timezone.utc], whole seconds (microsecond 0), and it is
    not before the cutoff. *)
Theorem reported_entries_invariant :
  forall (parse : string -> outcome Feedparser.feed)
         (now cutoff_time : Datetime.datetime) (out out' : stdout)
         (top_10 : list Entry) (x : Entry),
    Datetime.datetime_sub now (Datetime.timedelta_hours 24) = Return cutoff_time ->
    main parse now out = (Return top_10, out') ->
    In x top_10 ->
    fetched_from_feeds parse x
    /\ In (source x)
         ["TechCrunch"; "The Verge"; "Wired"; "Ars Technica"; "BBC Tech"]
    /\ forall d,
        date x = Some d ->
        Datetime.valid_datetime d = true
        /\ Datetime.tzinfo d = Some Datetime.utc
        /\ Datetime.microsecond d = 0
        /\ Datetime.datetime_ge d cutoff_time = true.
Proof.
  intros parse now cutoff_time out out' top_10 x Hc Hmain Hin.
  pose proof (main_eq parse now cutoff_time out Hc) as Heq; cbv zeta in Heq.
  assert (Htop : top_10 = firstn 10 (sorted_entries parse cutoff_time))
    by congruence.
  rewrite Htop in Hin; clear Heq Htop Hmain.
  apply In_firstn, sorted_entries_In, filter_In in Hin as [Hf Hrecent].
  split; [apply fetched_from_feeds_iff; assumption|].
  apply fetched_In in Hf as (url & source_name & Hfeed & Hf).
  apply fetch_feed_result_In in Hf as (feed & entry & _ & _ & Hn).
  apply normalize_entry_Return in Hn as (Hd & _ & Hs & _).
  split.
  - rewrite Hs; change (In source_name (map snd feeds)).
    apply in_map_iff; exists (url, source_name); auto.
  - intros d Hsome; rewrite Hsome in Hd.
    destruct (get_pub_date_valid _ _ Hd) as [Hv Htz].
    repeat split; try assumption.
    + apply (get_pub_date_microsecond _ _ Hd).
    + unfold is_recent in Hrecent; rewrite Hsome in Hrecent; assumption.
Qed.

Lemma reported_entries_invariant_witness :
  In (source Samples.entry_r1)
    ["TechCrunch"; "The Verge"; "Wired"; "Ars Technica"; "BBC Tech"].
Proof.
  apply (reported_entries_invariant Samples.world Samples.now Samples.cutoff
           [] (snd (main Samples.world Samples.now []))
           (firstn 10 (sorted_entries Samples.world Samples.cutoff))
           Samples.entry_r1).
  - reflexivity.
  - vm_compute; reflexivity.
  - vm_compute; auto 10.
Defined.

(** X11. The order in which the feeds are listed shows in the report.
    Before the sort the kept entries stand feed after feed in the
    order of the feed list, and inside a feed in the order of the
    feed; the sort leaves the entries that share one key (one
    timestamp, or no date) in exactly that order. *)
Theorem ties_in_feed_order :
  forall (parse : string -> outcome Feedparser.feed)
         (now cutoff_time : Datetime.datetime) (out : stdout)
         (per_feed : list (list Entry)),
    Datetime.datetime_sub now (Datetime.timedelta_hours 24) = Return cutoff_time ->
    Forall2 (fun f entries =>
               exists out',
                 fetch_feed parse (fst f) (snd f) [] = (Return entries, out'))
      feeds per_feed ->
    exists all_entries sorted out1,
      for_in feeds (main_feed parse cutoff_time) [] out = (Return all_entries, out1)
      /\ main_sorted parse now out = (Return sorted, out1)
      /\ all_entries
         = List.concat (map (filter (is_recent cutoff_time)) per_feed)
      /\ forall k,
          with_key sort_key Datetime.datetime_ge k sorted
          = List.concat
              (map (fun entries =>
                      with_key sort_key Datetime.datetime_ge k
                        (filter (is_recent cutoff_time) entries))
                 per_feed).
Proof.
  intros parse now cutoff_time out per_feed Hc Hper.
  apply fetched_concat in Hper.
  rewrite main_loop_eq, (main_sorted_eq parse now cutoff_time out Hc); cbn [app].
  do 3 eexists; split; [reflexivity|]; split; [reflexivity|].
  rewrite <- Hper, <- concat_filter_map; split; [reflexivity|].
  intros k; unfold sorted_entries, aggregate.
  rewrite sort_with_key by apply datetime_ge_trans.
  rewrite <- Hper; unfold with_key.
  rewrite <- !concat_filter_map, map_map; reflexivity.
Qed.

Lemma ties_in_feed_order_witness :
  exists all_entries sorted out1,
    for_in feeds (main_feed Samples.world Samples.cutoff) [] []
    = (Return all_entries, out1)
    /\ main_sorted Samples.world Samples.now [] = (Return sorted, out1)
    /\ with_key sort_key Datetime.datetime_ge datetime_min_utc sorted
       = [Samples.entry_a3; Samples.entry_r1; Samples.entry_r2].
Proof.
  destruct (ties_in_feed_order Samples.world Samples.now Samples.cutoff []
              [ [ Samples.entry_a1; Samples.entry_a2; Samples.entry_a3;
                  mk_Entry "a4" "TechCrunch"
                    (Some (utc_datetime (Samples.st 2024 2 1 9 0 0)))
                    "https://example.org/a4";
                  Samples.entry_a5 ];
                []; []; [Samples.entry_r1; Samples.entry_r2]; [] ]
              eq_refl)
    as (all_entries & sorted & out1 & H1 & H2 & _ & H3).
  - repeat constructor; eexists; vm_compute; reflexivity.
  - exists all_entries, sorted, out1; split; [assumption|];
      split; [assumption|].
    rewrite H3; reflexivity.
Defined.

(** X12. Undated entries never push a dated entry out of the report.
    When the cutoff is later than [datetime.min] and an undated entry
    is among the ten that are shown, every entry that was cut off is
    undated as well. *)
Theorem undated_cut_first :
  forall (parse : string -> outcome Feedparser.feed)
         (now cutoff_time : Datetime.datetime) (out : stdout),
    Datetime.datetime_sub now (Datetime.timedelta_hours 24) = Return cutoff_time ->
    Datetime.datetime_lt datetime_min_utc cutoff_time = true ->
    exists sorted top_10 out1 out2,
      main_sorted parse now out = (Return sorted, out1)
      /\ main parse now out = (Return top_10, out2)
      /\ forall a b,
          In a top_10 -> date a = None ->
          In b (skipn 10 sorted) -> date b = None.
Proof.
  intros parse now cutoff_time out Hc Hmin.
  rewrite (main_sorted_eq parse now cutoff_time out Hc),
    (main_eq parse now cutoff_time out Hc); cbv zeta.
  do 4 eexists; split; [reflexivity|]; split; [reflexivity|].
  intros a b Ha Hda Hb.
  destruct (date b) as [db|] eqn:Hdb; [exfalso|reflexivity].
  assert (Hge : Datetime.datetime_ge (sort_key a) (sort_key b) = true).
  { apply (descending_firstn_skipn sort_key Datetime.datetime_ge
             (sorted_entries parse cutoff_time) 10 a b);
      [apply sort_descending;
       [apply datetime_ge_total|apply datetime_ge_trans]
      |assumption|assumption]. }
  rewrite (sort_key_dateless a Hda), (sort_key_dated b db Hdb) in Hge.
  assert (Hrecent : Datetime.datetime_ge db cutoff_time = true).
  { assert (Hin : In b (sorted_entries parse cutoff_time))
      by (rewrite <- (firstn_skipn 10 (sorted_entries parse cutoff_time));
          apply in_or_app; right; assumption).
    apply sorted_entries_In, filter_In in Hin as [_ Hin].
    unfold is_recent in Hin; rewrite Hdb in Hin; assumption. }
  rewrite datetime_lt_ge, (datetime_ge_trans _ _ _ Hge Hrecent) in Hmin.
  discriminate.
Qed.

Lemma undated_cut_first_witness :
  exists sorted top_10 out1 out2,
    main_sorted Samples.busy_world Samples.now [] = (Return sorted, out1)
    /\ main Samples.busy_world Samples.now [] = (Return top_10, out2)
    /\ Forall (fun a => date a <> None) top_10.
Proof.
  destruct (undated_cut_first Samples.busy_world Samples.now Samples.cutoff []
              eq_refl eq_refl)
    as (sorted & top_10 & out1 & out2 & H1 & H2 & _).
  exists sorted, top_10, out1, out2; split; [assumption|];
    split; [assumption|].
  vm_compute in H2; injection H2 as <- _.
  repeat constructor; discriminate.
Defined.
